(** * lightweightworker: the TeraBox share-link checker

    A shallow embedding of the two Express applications of the repository,
    [src/index.js] (module [Index]) and [src/unnamed/part_000] (module
    [Part0]), and the properties of their request pipeline.

    Conventions of the embedding.
    - A JavaScript string is a [string]; an [ascii] stands for one code unit.
    - A JavaScript value that comes out of [response.json()] is a [value];
      numbers are the integral ones ([errno], [size], [isdir] are integers).
    - A thrown exception is an [exn] carrying its [message]; a computation
      that may throw without touching the network is a [exn + A].
    - An [async] function is an [io A]: a tree whose nodes are the outbound
      [fetch] calls, whose leaves are a returned value or a thrown
      exception.  [run net] plays such a tree against a network [net] and
      gives the outcome together with the requests sent, in order.
    - [new URL], [URL.prototype.toString] and the [hostname] setter are
      platform functions: they are the fields of a [UrlApi], over which
      everything is parametric. *)

From Stdlib Require Import String Ascii List ZArith Bool Lia.
Import ListNotations.
Open Scope string_scope.
Open Scope list_scope.

(** ** JavaScript strings *)

Module JsString.

(** [s.startsWith(p)] *)
Definition startsWith (s p : string) : bool := String.prefix p s.

(** [s.substring(n)] *)
Fixpoint substring_from (n : nat) (s : string) : string :=
  match n, s with
  | O, _ => s
  | S _, EmptyString => EmptyString
  | S n', String _ s' => substring_from n' s'
  end.

(** The longest prefix of [s] whose code units satisfy [p]. *)
Fixpoint take_while (p : ascii -> bool) (s : string) : string :=
  match s with
  | EmptyString => EmptyString
  | String c s' => if p c then String c (take_while p s') else EmptyString
  end.

Definition is_empty (s : string) : bool :=
  match s with EmptyString => true | String _ _ => false end.

(** [s.match(/LIT([^STOP]+)/)], capture group 1: the leftmost position at
    which the literal [lit] is followed by at least one code unit outside
    [stop]; the group is the longest run of such code units ([+] is
    greedy and nothing follows it in the pattern). [None] is [null]. *)
Fixpoint match_lit_run (lit : string) (stop : ascii -> bool) (s : string)
  : option string :=
  let here :=
    if String.prefix lit s
    then take_while (fun c => negb (stop c)) (substring_from (String.length lit) s)
    else EmptyString in
  if is_empty here
  then match s with
       | EmptyString => None
       | String _ s' => match_lit_run lit stop s'
       end
  else Some here.

(** [/LIT/.test(s)] for a literal pattern: [lit] occurs in [s]. *)
Fixpoint includes (lit : string) (s : string) : bool :=
  String.prefix lit s ||
  match s with
  | EmptyString => false
  | String _ s' => includes lit s'
  end.

End JsString.

(** ** JavaScript values and exceptions *)

Record exn : Type := Error { message : string }.

#[local] Set Warnings "-register-all".

Inductive value : Type :=
| VUndefined
| VNull
| VBool (b : bool)
| VNum (n : Z)
| VStr (s : string)
| VArr (items : list value)
| VObj (fields : list (string * value)).

Module Js.

(** ToBoolean. *)
Definition truthy (v : value) : bool :=
  match v with
  | VUndefined | VNull => false
  | VBool b => b
  | VNum n => negb (n =? 0)%Z
  | VStr s => negb (JsString.is_empty s)
  | VArr _ | VObj _ => true
  end.

(** [a || b] *)
Definition or_else (a b : value) : value := if truthy a then a else b.

(** [v === 0] *)
Definition is_zero (v : value) : bool :=
  match v with
  | VNum n => (n =? 0)%Z
  | _ => false
  end.

Fixpoint lookup (name : string) (fields : list (string * value)) : value :=
  match fields with
  | [] => VUndefined
  | (k, v) :: rest => if String.eqb k name then v else lookup name rest
  end.

(** The text V8 gives to the TypeError of a property read on [null] or
    [undefined]. *)
Definition cannot_read (what name : string) : exn :=
  Error ("Cannot read properties of " ++ what ++ " (reading '" ++ name ++ "')").

(** [v.name], for the property names the program reads ([errno], [errmsg],
    [list], [length], [server_filename], [size], [isdir]): an own property
    of an object, the length of a string or an array, [undefined] on
    anything else, a TypeError on [null] and [undefined]. *)
Definition get (v : value) (name : string) : exn + value :=
  match v with
  | VUndefined => inl (cannot_read "undefined" name)
  | VNull => inl (cannot_read "null" name)
  | VObj fields => inr (lookup name fields)
  | VStr s =>
      inr (if String.eqb name "length" then VNum (Z.of_nat (String.length s))
           else VUndefined)
  | VArr items =>
      inr (if String.eqb name "length" then VNum (Z.of_nat (List.length items))
           else VUndefined)
  | VBool _ | VNum _ => inr VUndefined
  end.

(** [xs.map(f)] on the items of an array, [f] possibly throwing: items are
    visited in order and the first exception ends the traversal. *)
Fixpoint map_items {A : Type} (f : value -> exn + A) (xs : list value)
  : exn + list A :=
  match xs with
  | [] => inr []
  | x :: rest =>
      match f x with
      | inl e => inl e
      | inr y =>
          match map_items f rest with
          | inl e => inl e
          | inr ys => inr (y :: ys)
          end
      end
  end.

(** The text V8 gives to the TypeError of calling a property that is not a
    function. *)
Definition not_a_function (what : string) : exn :=
  Error (what ++ " is not a function").

(** Sequencing of computations that may throw. *)
Definition bind {A B : Type} (m : exn + A) (f : A -> exn + B) : exn + B :=
  match m with
  | inl e => inl e
  | inr a => f a
  end.

End Js.

Notation "x <-? m ;; k" := (Js.bind m (fun x => k))
  (at level 61, m at next level, right associativity).

(** ** Outbound requests and asynchronous computations *)

Record request : Type := Request {
  req_url : string;
  req_method : string;
  req_headers : list (string * string)
}.

(** What the program looks at in a [Response]: [response.ok], and what
    [await response.json()] gives, a parsed body or an exception. *)
Record response : Type := Response {
  ok : bool;
  json : exn + value
}.

(** What [await fetch(...)] gives: an exception (the promise is rejected) or
    a response. *)
Inductive fetch_reply : Type :=
| Rejected (e : exn)
| Resolved (r : response).

Inductive io (A : Type) : Type :=
| Ret (a : A)
| Throw (e : exn)
| Fetch (rq : request) (k : fetch_reply -> io A).

Arguments Ret {A} a.
Arguments Throw {A} e.
Arguments Fetch {A} rq k.

Module Io.

Fixpoint bind {A B : Type} (m : io A) (f : A -> io B) : io B :=
  match m with
  | Ret a => f a
  | Throw e => Throw e
  | Fetch rq k => Fetch rq (fun reply => bind (k reply) f)
  end.

(** [try { m } catch (error) { h error }] *)
Fixpoint try_catch {A : Type} (m : io A) (h : exn -> io A) : io A :=
  match m with
  | Ret a => Ret a
  | Throw e => h e
  | Fetch rq k => Fetch rq (fun reply => try_catch (k reply) h)
  end.

(** A computation that does not await anything. *)
Definition lift {A : Type} (r : exn + A) : io A :=
  match r with
  | inl e => Throw e
  | inr a => Ret a
  end.

(** [await fetch(url, {method, headers})] *)
Definition fetch (rq : request) : io response :=
  Fetch rq (fun reply =>
    match reply with
    | Rejected e => Throw e
    | Resolved r => Ret r
    end).

(** Playing a computation against a network: the outcome and the requests
    sent, in the order they were sent. *)
Fixpoint run {A : Type} (net : request -> fetch_reply) (m : io A)
  : (exn + A) * list request :=
  match m with
  | Ret a => (inr a, [])
  | Throw e => (inl e, [])
  | Fetch rq k =>
      let (r, sent) := run net (k (net rq)) in (r, rq :: sent)
  end.

Definition outcome {A : Type} (net : request -> fetch_reply) (m : io A)
  : exn + A := fst (run net m).

Definition requests {A : Type} (net : request -> fetch_reply) (m : io A)
  : list request := snd (run net m).

End Io.

Notation "x <- m ;; k" := (Io.bind m (fun x => k))
  (at level 61, m at next level, right associativity).

(** The value paired with the first [name] of an association list. *)
Fixpoint assoc (name : string) (l : list (string * string)) : option string :=
  match l with
  | [] => None
  | (k, v) :: rest => if String.eqb k name then Some v else assoc name rest
  end.

(** The value of the header [name] of [rq], if present. *)
Definition header (name : string) (rq : request) : option string :=
  assoc name (req_headers rq).

(** ** The platform's URL objects *)

(** The components of a parsed URL, as the [URL] interface names them. *)
Record URL : Type := MkURL {
  protocol : string;
  username : string;
  password : string;
  hostname : string;
  port : string;
  pathname : string;
  search : string;
  hash : string;
  searchParams : list (string * string)
}.

(** [urlObj.searchParams.has(name)] and [urlObj.searchParams.get(name)]: the
    value of the first pair named [name]; [None] is [null]. *)
Definition searchParams_has (u : URL) (name : string) : bool :=
  existsb (fun kv => String.eqb (fst kv) name) (searchParams u).

Definition searchParams_get (u : URL) (name : string) : option string :=
  assoc name (searchParams u).

(** [new URL(s)] ([None] when it throws), [urlObj.toString()], and the
    object that [urlObj.hostname = h] leaves: the platform parses [h] as a
    host and stores the result, or leaves the object as it was when [h] is
    no host or carries a port. *)
Record UrlApi : Type := MkUrlApi {
  URL_parse : string -> option URL;
  URL_toString : URL -> string;
  URL_set_hostname : URL -> string -> URL
}.

(** ** Data shared by the two applications *)

Definition DEFAULT_HOST : string := "dm.nephobox.com".

(** What [fetchShortUrlInfo] and [fetchShareListFallback] return:
    [{success: true, data}] or [{success: false, errno, error}] ([errno] is
    [undefined] where the object literal has no such property). *)
Inductive ApiResult : Type :=
| Success (data : value)
| Failure (errno : value) (error : value).

(** [data.errno === 0], for a [data] that is not [null]: the condition is
    only evaluated after [data &&]. *)
Definition errno_is_zero (data : value) : bool :=
  match Js.get data "errno" with
  | inr errno => Js.is_zero errno
  | inl _ => false
  end.

(** [{name, size, isdir}] *)
Record FileEntry : Type := MkFileEntry {
  name : value;
  size : value;
  isdir : value
}.

(** What [checkUrl] returns: [{exists, total_files, files}] or
    [{exists: false, error}]. *)
Inductive CheckResult : Type :=
| CheckFiles (exists_ : bool) (total_files : nat) (files : list FileEntry)
| CheckError (error : value).

(** The [exists] property of a result. *)
Definition exists_of (r : CheckResult) : bool :=
  match r with
  | CheckFiles e _ _ => e
  | CheckError _ => false
  end.

(** The arrow function given to [fileList.map]:
    [f => ({name: f.server_filename, size: f.size, isdir: f.isdir})]. *)
Definition file_entry (f : value) : exn + FileEntry :=
  n <-? Js.get f "server_filename" ;;
  s <-? Js.get f "size" ;;
  d <-? Js.get f "isdir" ;;
  inr (MkFileEntry n s d).

(** The object handed to [res.json]. *)
Definition FileEntry_json (f : FileEntry) : value :=
  VObj [("name", name f); ("size", size f); ("isdir", isdir f)].

Definition CheckResult_json (r : CheckResult) : value :=
  match r with
  | CheckFiles e n fs =>
      VObj [("exists", VBool e); ("total_files", VNum (Z.of_nat n));
            ("files", VArr (map FileEntry_json fs))]
  | CheckError err => VObj [("exists", VBool false); ("error", err)]
  end.

(** [req.query] of a request that gives each of the three parameters the
    handlers read at most once: each is absent or a string.  (A parameter
    given several times is an array: see [qparam] for such a [cookie].) *)
Record query : Type := Query {
  q_url : option string;
  q_cookie : option string;
  q_host : option string
}.

(** [!p] for a query parameter: absent, or the empty string. *)
Definition missing (p : option string) : bool :=
  match p with
  | None => true
  | Some s => JsString.is_empty s
  end.

(** The string of a parameter that is not [missing]. *)
Definition the (p : option string) : string :=
  match p with
  | Some s => s
  | None => EmptyString
  end.

(** The status and the JSON body of an HTTP response. *)
Record http_response : Type := HttpResponse {
  status : nat;
  body : value
}.

(** [if (!cookie.startsWith('ndus=')) cookie = `ndus=${cookie}`], the same
    statement in both handlers. *)
Definition with_ndus_prefix (cookie : string) : string :=
  if negb (JsString.startsWith cookie "ndus=") then "ndus=" ++ cookie else cookie.

(** [s.startsWith('1') && s.length > 1 ? s.substring(1) : s], the same
    expression in both [checkUrl] functions. *)
Definition strip_one (s : string) : string :=
  if JsString.startsWith s "1" && (1 <? String.length s)%nat
  then JsString.substring_from 1 s
  else s.

(** The class [[^\/\?&]] excludes these code units. *)
Definition path_stop (c : ascii) : bool :=
  Ascii.eqb c "/" || Ascii.eqb c "?" || Ascii.eqb c "&".

(** [s.match(/\/s\/([^\/\?&]+)/)], group 1. *)
Definition match_s_path (s : string) : option string :=
  JsString.match_lit_run "/s/" path_stop s.

(** [req.query.host || DEFAULT_HOST] *)
Definition host_or_default (h : option string) : string :=
  match h with
  | Some s => if JsString.is_empty s then DEFAULT_HOST else s
  | None => DEFAULT_HOST
  end.

(** ** [src/index.js] *)

Module Index.

(** The outbound request of [fetchShortUrlInfo] (lines 32-43). *)
Definition shortUrlInfo_request (shortUrl cookie host : string) : request :=
  {| req_url := "https://" ++ host
                ++ "/api/shorturlinfo?clienttype=1&root=1&shorturl=" ++ shortUrl;
     req_method := "GET";
     req_headers :=
       [("Accept", "*/*");
        ("Accept-Language", "en-IN,en;q=0.9");
        ("Connection", "keep-alive");
        ("Cookie", cookie);
        ("User-Agent", "dubox;4.7.1;iPhone16ProMax;ios-iphone;26.0.1;en_IN")] |}.

(** Lines 45-52: what the [try] block does with the response. *)
Definition read_response (resp : response) : exn + ApiResult :=
  if ok resp then
    data <-? json resp ;;
    if Js.truthy data && errno_is_zero data
    then inr (Success data)
    else
      errno <-? Js.get data "errno" ;;
      errmsg <-? Js.get data "errmsg" ;;
      inr (Failure errno (Js.or_else errmsg (VStr "API error")))
  else inr (Failure VUndefined (VStr "Request failed")).

(** [async function fetchShortUrlInfo(shortUrl, cookie, host)] *)
Definition fetchShortUrlInfo (shortUrl cookie host : string) : io ApiResult :=
  Io.try_catch
    (resp <- Io.fetch (shortUrlInfo_request shortUrl cookie host) ;;
     Io.lift (read_response resp))
    (fun error =>
       Ret (Failure VUndefined (VStr ("Network error: " ++ message error)))).

(** Lines 69-74: the value of [shortUrl] after the inner [try] block, for
    a URL that parsed to [urlObj]; [None] is [null]. *)
Definition shortUrl_of (urlObj : URL) (url : string) : option string :=
  if searchParams_has urlObj "surl"
  then searchParams_get urlObj "surl"
  else match_s_path url.

(** Lines 91-115: what [checkUrl] makes of the result of the lookup. *)
Definition check_result (result : ApiResult) : exn + CheckResult :=
  match result with
  | Success data =>
      list <-? Js.get data "list" ;;
      let fileList := Js.or_else list (VArr []) in
      len <-? Js.get fileList "length" ;;
      if Js.is_zero len then inr (CheckError (VStr "No files found"))
      else
        match fileList with
        | VArr items =>
            files <-? Js.map_items file_entry items ;;
            inr (CheckFiles true (List.length items) files)
        | _ => inl (Js.not_a_function "fileList.map")
        end
  | Failure _ error =>
      inr (CheckError (Js.or_else error (VStr "File not found or deleted")))
  end.

(** The document sent when no parameter is given (lines 143-157). *)
Definition api_info : value :=
  VObj [("name", VStr "TeraBox URL Checker");
        ("version", VStr "1.0.0");
        ("description", VStr "Lightweight API to check if TeraBox files exist");
        ("usage", VStr "GET /?url=TERABOX_URL&cookie=ndus=YOUR_COOKIE");
        ("endpoints", VObj [("/", VStr "Check URL");
                            ("/health", VStr "Health check")]);
        ("response", VObj [("exists", VStr "true/false");
                           ("total_files", VStr "number");
                           ("files", VStr "[{name, size, isdir}]")])].

Section WithUrlApi.

Variable api : UrlApi.

(** [async function checkUrl(url, cookie, host)] *)
Definition checkUrl (url cookie host : string) : io CheckResult :=
  Io.try_catch
    (match URL_parse api url with
     | None => Ret (CheckError (VStr "Invalid URL format"))
     | Some urlObj =>
         let shortUrl := shortUrl_of urlObj url in
         if missing shortUrl
         then Ret (CheckError (VStr "Could not parse Short URL"))
         else
           let apiShortUrl := strip_one (the shortUrl) in
           result <- fetchShortUrlInfo apiShortUrl cookie host ;;
           Io.lift (check_result result)
     end)
    (fun error =>
       Ret (CheckError (VStr ("Check failed: " ++ message error)))).

(** [app.get('/', async (req, res) => ...)] *)
Definition get_root (q : query) : io http_response :=
  let teraUrl := q_url q in
  let cookie := q_cookie q in
  let host := host_or_default (q_host q) in
  if missing teraUrl && missing cookie
  then Ret (HttpResponse 200 api_info)
  else if missing teraUrl
  then Ret (HttpResponse 400 (VObj [("error", VStr "Missing 'url' parameter")]))
  else if missing cookie
  then Ret (HttpResponse 401 (VObj [("error", VStr "Missing 'cookie' parameter")]))
  else
    let cookie := with_ndus_prefix (the cookie) in
    result <- checkUrl (the teraUrl) cookie host ;;
    Ret (HttpResponse 200 (CheckResult_json result)).

End WithUrlApi.

End Index.

(** ** [src/unnamed/part_000] *)

Module Part0.

Definition TERABOX_DOMAINS : list string :=
  ["terafileshare.com"; "www.terafileshare.com";
   "terabox.com"; "www.terabox.com";
   "terabox.club"; "www.terabox.club";
   "teraboxlink.com"; "4funbox.com"; "www.4funbox.com";
   "terasharelink.com"; "1024terabox.com"; "www.1024terabox.com";
   "terabox.app"; "www.terabox.app"; "terabox.fun";
   "1024tera.com"; "1024tera.co"; "1024box.com";
   "teraboxshare.com"; "teraboxapp.com"; "momerybox.com";
   "4funbox.co"; "mirrobox.com"; "nephobox.com";
   "freeterabox.com"; "tibibox.com"].

(** [TERABOX_DOMAINS.includes(h)] *)
Definition is_alias (h : string) : bool :=
  existsb (String.eqb h) TERABOX_DOMAINS.

(** The outbound request of [fetchShortUrlInfo] (lines 53-63). *)
Definition shortUrlInfo_request (shortUrl cookie host : string) : request :=
  {| req_url := "https://" ++ host
                ++ "/api/shorturlinfo?clienttype=1&root=1&shorturl=" ++ shortUrl;
     req_method := "GET";
     req_headers :=
       [("Accept", "*/*");
        ("Accept-Language", "en-IN,en;q=0.9");
        ("Connection", "keep-alive");
        ("Cookie", cookie);
        ("User-Agent", "dubox;4.7.1;iPhone16ProMax;ios-iphone;26.0.1;en_IN")] |}.

(** The outbound request of [fetchShareListFallback] (lines 80-85). *)
Definition shareList_request (shortUrl : string) : request :=
  {| req_url := "https://www.nephobox.com/share/list?clienttype=5&shorturl="
                ++ shortUrl ++ "&root=1";
     req_method := "GET";
     req_headers := [("Accept", "application/json, text/plain, */*")] |}.

(** Lines 65-72 and 87-94: what the [try] block does with the response;
    the two functions differ in the two strings they put in [error]. *)
Definition read_response (api_error request_error : string) (resp : response)
  : exn + ApiResult :=
  if ok resp then
    data <-? json resp ;;
    if Js.truthy data && errno_is_zero data
    then inr (Success data)
    else
      errno <-? Js.get data "errno" ;;
      errmsg <-? Js.get data "errmsg" ;;
      inr (Failure errno (Js.or_else errmsg (VStr api_error)))
  else inr (Failure VUndefined (VStr request_error)).

(** [async function fetchShortUrlInfo(shortUrl, cookie, host)] *)
Definition fetchShortUrlInfo (shortUrl cookie host : string) : io ApiResult :=
  Io.try_catch
    (resp <- Io.fetch (shortUrlInfo_request shortUrl cookie host) ;;
     Io.lift (read_response "API error" "Request failed" resp))
    (fun _ => Ret (Failure VUndefined (VStr "Network error"))).

(** [async function fetchShareListFallback(shortUrl)] *)
Definition fetchShareListFallback (shortUrl : string) : io ApiResult :=
  Io.try_catch
    (resp <- Io.fetch (shareList_request shortUrl) ;;
     Io.lift (read_response "Fallback error" "Fallback failed" resp))
    (fun _ => Ret (Failure VUndefined (VStr "Network error"))).

(** [s.match(/surl=([^&]+)/)], group 1. *)
Definition match_surl (s : string) : option string :=
  JsString.match_lit_run "surl=" (fun c => Ascii.eqb c "&") s.

(** Lines 104-116: the value of [shortUrl] once the two patterns were
    tried on the normalized URL; [None] is [null]. *)
Definition shortUrl_of (normalizedUrl : string) : option string :=
  match match_surl normalizedUrl with
  | Some surl => Some surl
  | None =>
      match match_s_path normalizedUrl with
      | Some rawUrl => Some (strip_one rawUrl)
      | None => None
      end
  end.

(** Lines 126-135 and 142-151, the same statements on [primaryResult.data]
    and on [fallbackResult.data].  When [fileList] is not an array,
    [fileList.map] is not a function: the object literal throws a
    TypeError whatever [exists] and [total_files] were evaluated to. *)
Definition file_listing (data : value) : exn + CheckResult :=
  list <-? Js.get data "list" ;;
  let fileList := Js.or_else list (VArr []) in
  match fileList with
  | VArr items =>
      files <-? Js.map_items file_entry items ;;
      inr (CheckFiles (0 <? List.length items)%nat (List.length items) files)
  | _ => inl (Js.not_a_function "fileList.map")
  end.

(** The document sent when there is no [url] (lines 176-187). *)
Definition api_info : value :=
  VObj [("name", VStr "TeraBox URL Checker");
        ("version", VStr "1.0.0");
        ("description", VStr "Lightweight API to check if TeraBox files exist");
        ("usage", VStr "GET /?url=TERABOX_URL&cookie=YOUR_COOKIE");
        ("example",
         VStr "/?url=https://1024terabox.com/s/1xxxxx&cookie=ndus=YOUR_NDUS_VALUE");
        ("response", VObj [("exists", VStr "true/false");
                           ("total_files", VStr "number");
                           ("files", VStr "array of {name, size, isdir}")])].

(** [/(?:terabox|tera|1024tera|4funbox|nephobox|mirrobox|freeterabox)/.test(s)] *)
Definition looks_like_terabox (s : string) : bool :=
  existsb (fun word => JsString.includes word s)
    ["terabox"; "tera"; "1024tera"; "4funbox"; "nephobox"; "mirrobox";
     "freeterabox"].

Section WithUrlApi.

Variable api : UrlApi.

(** [function convertToDefaultHost(url, defaultHost)] *)
Definition convertToDefaultHost (url defaultHost : string) : string :=
  match URL_parse api url with
  | Some urlObj =>
      if is_alias (hostname urlObj)
      then URL_toString api (URL_set_hostname api urlObj defaultHost)
      else url
  | None => url
  end.

(** [async function checkUrl(url, cookie, host)] *)
Definition checkUrl (url cookie host : string) : io CheckResult :=
  Io.try_catch
    (let normalizedUrl := convertToDefaultHost url host in
     let shortUrl := shortUrl_of normalizedUrl in
     if missing shortUrl
     then Ret (CheckError (VStr "Invalid URL"))
     else
       let shortUrl := the shortUrl in
       primaryResult <- fetchShortUrlInfo shortUrl cookie host ;;
       match primaryResult with
       | Success data => Io.lift (file_listing data)
       | Failure _ _ =>
           fallbackResult <- fetchShareListFallback shortUrl ;;
           match fallbackResult with
           | Success data => Io.lift (file_listing data)
           | Failure _ _ => Ret (CheckError (VStr "File not found or deleted"))
           end
       end)
    (fun _ => Ret (CheckError (VStr "Check failed"))).

(** [app.get('/', async (req, res) => ...)] *)
Definition get_root (q : query) : io http_response :=
  let teraUrl := q_url q in
  let cookie := q_cookie q in
  let host := host_or_default (q_host q) in
  if missing teraUrl
  then Ret (HttpResponse 200 api_info)
  else if missing cookie
  then Ret (HttpResponse 401 (VObj [("error", VStr "Missing 'cookie' parameter")]))
  else
    let cookie := with_ndus_prefix (the cookie) in
    if negb (looks_like_terabox (the teraUrl))
    then Ret (HttpResponse 400 (VObj [("error", VStr "Invalid TeraBox URL")]))
    else
      result <- checkUrl (the teraUrl) cookie host ;;
      Ret (HttpResponse 200 (CheckResult_json result)).

End WithUrlApi.

End Part0.

(** ** Query parameters that are not strings

    [req.query] holds a string for a parameter given once, and an array or
    an object for a parameter given several times or with brackets
    ([?cookie=a&cookie=b], [?cookie[x]=a]).  The handlers are modelled here
    for any such [cookie], with [url] and [host] given at most once. *)

Inductive qparam : Type :=
| QAbsent
| QString (s : string)
| QOther.

Definition qparam_of (p : option string) : qparam :=
  match p with
  | None => QAbsent
  | Some s => QString s
  end.

(** [!p]: an array and an object are truthy. *)
Definition qmissing (p : qparam) : bool :=
  match p with
  | QAbsent => true
  | QString s => JsString.is_empty s
  | QOther => false
  end.

(** [if (!cookie.startsWith('ndus=')) cookie = `ndus=${cookie}`] for any
    [cookie]: on an array or an object [cookie.startsWith] is not a
    function, and the call throws a TypeError. *)
Definition normalize_cookie (cookie : qparam) : exn + string :=
  match cookie with
  | QString c => inr (with_ndus_prefix c)
  | QOther => inl (Js.not_a_function "cookie.startsWith")
  | QAbsent => inl (Js.cannot_read "undefined" "startsWith")
  end.

Module AnyCookie.

Section WithUrlApi.

Variable api : UrlApi.

(** [app.get('/', async (req, res) => ...)] of [index.js] *)
Definition index_get_root (teraUrl : option string) (cookie : qparam)
           (host : option string) : io http_response :=
  let host := host_or_default host in
  if missing teraUrl && qmissing cookie
  then Ret (HttpResponse 200 Index.api_info)
  else if missing teraUrl
  then Ret (HttpResponse 400 (VObj [("error", VStr "Missing 'url' parameter")]))
  else if qmissing cookie
  then Ret (HttpResponse 401 (VObj [("error", VStr "Missing 'cookie' parameter")]))
  else
    cookie <- Io.lift (normalize_cookie cookie) ;;
    result <- Index.checkUrl api (the teraUrl) cookie host ;;
    Ret (HttpResponse 200 (CheckResult_json result)).

(** [app.get('/', async (req, res) => ...)] of [part_000] *)
Definition part0_get_root (teraUrl : option string) (cookie : qparam)
           (host : option string) : io http_response :=
  let host := host_or_default host in
  if missing teraUrl
  then Ret (HttpResponse 200 Part0.api_info)
  else if qmissing cookie
  then Ret (HttpResponse 401 (VObj [("error", VStr "Missing 'cookie' parameter")]))
  else
    cookie <- Io.lift (normalize_cookie cookie) ;;
    if negb (Part0.looks_like_terabox (the teraUrl))
    then Ret (HttpResponse 400 (VObj [("error", VStr "Invalid TeraBox URL")]))
    else
      result <- Part0.checkUrl api (the teraUrl) cookie host ;;
      Ret (HttpResponse 200 (CheckResult_json result)).

End WithUrlApi.

End AnyCookie.

(** ** A URL interface to run the applications on

    [PlainUrl.api] reads the URLs written [http(s)://host/path?query#fragment]
    with a lower-case host name and no port, credentials, dot segments or
    escapes, where it gives the components the platform gives.  As a target
    of the [hostname] setter it reads the host names made of labels of
    lower-case letters, which the platform stores as they are written; it
    leaves the object as it was for any other target, as the platform does
    for a target with a port or with a character that no host name has
    (the platform also stores, rewritten, targets with digits, upper-case
    letters or a trailing path: this interface is not to be run on
    those). *)

Module PlainUrl.

(** The part of [s] before the first code unit satisfying [stop], and the
    rest of [s] from that code unit on. *)
Fixpoint break (stop : ascii -> bool) (s : string) : string * string :=
  match s with
  | EmptyString => (EmptyString, EmptyString)
  | String c s' =>
      if stop c then (EmptyString, s)
      else let (a, b) := break stop s' in (String c a, b)
  end.

Definition is_one_of (cs : string) (c : ascii) : bool :=
  existsb (Ascii.eqb c) (list_ascii_of_string cs).

Definition host_char (c : ascii) : bool :=
  is_one_of "abcdefghijklmnopqrstuvwxyz0123456789.-" c.

Fixpoint all_chars (p : ascii -> bool) (s : string) : bool :=
  match s with
  | EmptyString => true
  | String c s' => p c && all_chars p s'
  end.

(** The pieces of [s] between the occurrences of [sep]. *)
Fixpoint split (sep : ascii) (s : string) : list string :=
  match s with
  | EmptyString => [EmptyString]
  | String c s' =>
      if Ascii.eqb c sep then EmptyString :: split sep s'
      else match split sep s' with
           | [] => [String c EmptyString]
           | p :: ps => String c p :: ps
           end
  end.

(** The pairs of a query string [a=1&b=2]. *)
Definition pairs_of (q : string) : list (string * string) :=
  map (fun piece =>
         let (k, v) := break (Ascii.eqb "=") piece in
         (k, JsString.substring_from 1 v))
      (filter (fun piece => negb (JsString.is_empty piece)) (split "&" q)).

Definition after_scheme (s : string) : option (string * string) :=
  if String.prefix "https://" s then Some ("https:", JsString.substring_from 8 s)
  else if String.prefix "http://" s then Some ("http:", JsString.substring_from 7 s)
  else None.

Definition parse (s : string) : option URL :=
  match after_scheme s with
  | None => None
  | Some (scheme, rest) =>
      let (host, rest1) := break (is_one_of "/?#") rest in
      let (path, rest2) := break (is_one_of "?#") rest1 in
      let (qry, frag) := break (Ascii.eqb "#") rest2 in
      if JsString.is_empty host || negb (all_chars host_char host) then None
      else
        Some {| protocol := scheme; username := EmptyString;
                password := EmptyString; hostname := host;
                port := EmptyString;
                pathname := if JsString.is_empty path then "/" else path;
                search := if String.eqb qry "?" then EmptyString else qry;
                hash := if String.eqb frag "#" then EmptyString else frag;
                searchParams := pairs_of (JsString.substring_from 1 qry) |}
  end.

Definition toString (u : URL) : string :=
  protocol u ++ "//" ++ hostname u ++ pathname u ++ search u ++ hash u.

Definition letter (c : ascii) : bool :=
  is_one_of "abcdefghijklmnopqrstuvwxyz" c.

(** Labels of lower-case letters, separated by dots. *)
Definition plain_host (h : string) : bool :=
  forallb (fun label => negb (JsString.is_empty label) && all_chars letter label)
          (split "." h).

Definition with_hostname (u : URL) (h : string) : URL :=
  {| protocol := protocol u; username := username u; password := password u;
     hostname := h; port := port u; pathname := pathname u;
     search := search u; hash := hash u; searchParams := searchParams u |}.

Definition set_hostname (u : URL) (h : string) : URL :=
  if plain_host h then with_hostname u h else u.

Definition api : UrlApi :=
  {| URL_parse := parse; URL_toString := toString;
     URL_set_hostname := set_hostname |}.

End PlainUrl.

(** ** Networks to run the applications against *)

Module Net.

(** No request gets through. *)
Definition offline : request -> fetch_reply :=
  fun _ => Rejected (Error "fetch failed").

(** Every request is answered 200 with the JSON document [data]. *)
Definition serving (data : value) : request -> fetch_reply :=
  fun _ => Resolved (Response true (inr data)).

(** The requests that carry a cookie (those of [fetchShortUrlInfo]) get
    [primary], the others (those of [fetchShareListFallback]) get
    [fallback]. *)
Definition split (primary fallback : fetch_reply) : request -> fetch_reply :=
  fun rq =>
    match header "Cookie" rq with
    | Some _ => primary
    | None => fallback
    end.

(** The provider's answer for one shared file [a.txt] of 10 bytes. *)
Definition one_file : value :=
  VObj [("errno", VNum 0);
        ("list", VArr [VObj [("server_filename", VStr "a.txt");
                             ("size", VNum 10);
                             ("isdir", VNum 0)]])].

(** The provider's answers for a share without files: an empty list, and
    no list at all. *)
Definition no_files : value := VObj [("errno", VNum 0); ("list", VArr [])].

Definition no_list : value := VObj [("errno", VNum 0)].

(** The provider's answer for a share it does not know. *)
Definition not_found : value :=
  VObj [("errno", VNum 105); ("errmsg", VStr "share not found")].

End Net.

(** ** The vocabulary of the specification *)

(** [v.name] where it cannot throw: [undefined] stands for the exception. *)
Definition prop (v : value) (name : string) : value :=
  match Js.get v name with
  | inr x => x
  | inl _ => VUndefined
  end.

(** The FileEntry derived from one entry of the provider's list: the three
    properties copied as they are. *)
Definition entry_of (v : value) : FileEntry :=
  {| name := prop v "server_filename";
     size := prop v "size";
     isdir := prop v "isdir" |}.

(** The file list of a provider payload, an absent (or otherwise falsy)
    [list] being the empty list; [None] when [list] is not an array. *)
Definition payload_list (data : value) : option (list value) :=
  match Js.get data "list" with
  | inr list =>
      match Js.or_else list (VArr []) with
      | VArr items => Some items
      | _ => None
      end
  | inl _ => None
  end.

(** An entry of the list on which property reads do not throw. *)
Definition readable (v : value) : Prop := v <> VNull /\ v <> VUndefined.

(** The ways a lookup fails, by what the network answers: a network error,
    a transport response that is not 2xx, a provider [errno] other than 0. *)
Inductive lookup_failure : fetch_reply -> Prop :=
| network_error (e : exn) : lookup_failure (Rejected e)
| transport_error (body : exn + value) :
    lookup_failure (Resolved (Response false body))
| provider_error (data : value) (n : Z) :
    Js.get data "errno" = inr (VNum n) -> n <> 0%Z ->
    lookup_failure (Resolved (Response true (inr data))).

(** A successful provider response with payload [data]: 2xx, [errno] 0. *)
Definition provider_success (reply : fetch_reply) (data : value) : Prop :=
  reply = Resolved (Response true (inr data))
  /\ Js.get data "errno" = inr (VNum 0).

(** What the [catch] clause of [checkUrl] in [part_000] turns the outcome of
    the result mapping into. *)
Definition or_check_failed (r : exn + CheckResult) : CheckResult :=
  match r with
  | inr result => result
  | inl _ => CheckError (VStr "Check failed")
  end.

(** What the [catch] clause of [checkUrl] in [index.js] turns it into. *)
Definition or_check_failed_because (r : exn + CheckResult) : CheckResult :=
  match r with
  | inr result => result
  | inl error => CheckError (VStr ("Check failed: " ++ message error))
  end.


(** No code unit of [s] is in the class [stop]. *)
Definition free_of (stop : ascii -> bool) (s : string) : Prop :=
  forall c, In c (list_ascii_of_string s) -> stop c = false.

(** [s] is the empty string or begins with a code unit of the class
    [stop]: a run of code units outside [stop] cannot be extended into
    [s]. *)
Definition stops_at (stop : ascii -> bool) (s : string) : Prop :=
  s = EmptyString \/ exists c rest, s = String c rest /\ stop c = true.

(** [s] has, after [before] code units, the literal [lit] followed by a
    code unit outside [stop]: a position at which the pattern
    [/LIT([^STOP]+)/] matches. *)
Definition matches_at (lit : string) (stop : ascii -> bool) (s : string)
           (before : nat) : Prop :=
  exists pre c rest,
    s = (pre ++ lit ++ String c rest)%string
    /\ String.length pre = before /\ stop c = false.

(** ** Proof automation *)

(** Gives a name to the result of a lookup that has just been run. *)
Ltac name_lookup_result :=
  match goal with
  | |- context [(@inr exn ApiResult ?r, ?sent)] =>
      let result := fresh "lookup" in
      generalize r; intros result; cbn [fst]
  end.

(** * Properties *)

(** ** Running computations *)

Section RunFacts.

Context {A B : Type}.
Variable net : request -> fetch_reply.

Lemma run_bind (m : io A) (f : A -> io B) :
  Io.run net (Io.bind m f) =
  match Io.run net m with
  | (inr a, sent) => let (r, sent') := Io.run net (f a) in (r, sent ++ sent')
  | (inl e, sent) => (inl e, sent)
  end.
Proof.
  induction m as [a | e | rq k IH]; simpl.
  - destruct (Io.run net (f a)); reflexivity.
  - reflexivity.
  - rewrite IH. destruct (Io.run net (k (net rq))) as [[e | a] sent].
    + reflexivity.
    + destruct (Io.run net (f a)). reflexivity.
Qed.

Lemma run_try_catch (m : io A) (h : exn -> io A) :
  Io.run net (Io.try_catch m h) =
  match Io.run net m with
  | (inr a, sent) => (inr a, sent)
  | (inl e, sent) => let (r, sent') := Io.run net (h e) in (r, sent ++ sent')
  end.
Proof.
  induction m as [a | e | rq k IH]; simpl.
  - reflexivity.
  - destruct (Io.run net (h e)); reflexivity.
  - rewrite IH. destruct (Io.run net (k (net rq))) as [[e | a] sent].
    + destruct (Io.run net (h e)). reflexivity.
    + reflexivity.
Qed.

Lemma run_lift (r : exn + A) : Io.run net (Io.lift r) = (r, []).
Proof. destruct r; reflexivity. Qed.

End RunFacts.

Lemma run_fetch (net : request -> fetch_reply) (rq : request) :
  Io.run net (Io.fetch rq) =
  (match net rq with Rejected e => inl e | Resolved r => inr r end, [rq]).
Proof. simpl. destruct (net rq); reflexivity. Qed.

(** ** Strings and values *)

Lemma is_empty_false (s : string) : JsString.is_empty s = false <-> s <> EmptyString.
Proof. destruct s; simpl; split; congruence. Qed.

Lemma match_lit_run_eq (lit : string) (stop : ascii -> bool) (s : string) :
  JsString.match_lit_run lit stop s =
  let here :=
    if String.prefix lit s
    then JsString.take_while (fun c => negb (stop c))
           (JsString.substring_from (String.length lit) s)
    else EmptyString in
  if JsString.is_empty here
  then match s with
       | EmptyString => None
       | String _ s' => JsString.match_lit_run lit stop s'
       end
  else Some here.
Proof. destruct s; reflexivity. Qed.

Lemma match_lit_run_nonempty (lit : string) (stop : ascii -> bool) (s m : string) :
  JsString.match_lit_run lit stop s = Some m -> JsString.is_empty m = false.
Proof.
  induction s as [| c s IH]; rewrite match_lit_run_eq; cbv zeta;
    match goal with |- context [JsString.is_empty ?h] => set (here := h) end;
    destruct (JsString.is_empty here) eqn:E; intros H.
  - discriminate.
  - injection H as <-. exact E.
  - exact (IH H).
  - injection H as <-. exact E.
Qed.

Lemma strip_one_spec (s : string) :
  strip_one s =
  match s with
  | String "1" (String c rest) => String c rest
  | _ => s
  end.
Proof.
  destruct s as [| a [| c rest]]; [reflexivity | |];
    destruct a as [[] [] [] [] [] [] [] []]; reflexivity.
Qed.

Lemma strip_one_nonempty (s : string) :
  JsString.is_empty s = false -> JsString.is_empty (strip_one s) = false.
Proof.
  rewrite strip_one_spec.
  destruct s as [| a [| c rest]]; [congruence | |]; intros _;
    destruct a as [[] [] [] [] [] [] [] []]; reflexivity.
Qed.

Example strip_one_examples :
  strip_one "1abcXYZ" = "abcXYZ" /\ strip_one "xyz12" = "xyz12"
  /\ strip_one "1" = "1".
Proof. repeat split. Qed.

Example match_s_path_examples :
  match_s_path "https://terabox.com/s/1abcXYZ?pwd=1" = Some "1abcXYZ"
  /\ match_s_path "https://terabox.com/s//s/1ab&x" = Some "1ab"
  /\ match_s_path "https://terabox.com/s/" = None.
Proof. repeat split. Qed.

Example match_surl_examples :
  Part0.match_surl "https://terabox.com/sharing/link?a=1&surl=xyz12&b=2"
  = Some "xyz12"
  /\ Part0.match_surl "https://terabox.com/sharing/link?surl=&x=surl=1" = Some "1"
  /\ Part0.match_surl "https://terabox.com/s/1abc" = None.
Proof. repeat split. Qed.

Lemma map_items_length {A : Type} (f : value -> exn + A) (xs : list value)
      (ys : list A) :
  Js.map_items f xs = inr ys -> List.length ys = List.length xs.
Proof.
  revert ys. induction xs as [| x xs IH]; simpl; intros ys H.
  - injection H as <-. reflexivity.
  - destruct (f x) as [e | y]; [discriminate |].
    destruct (Js.map_items f xs) as [e | ys']; [discriminate |].
    injection H as <-. simpl. f_equal. apply IH. reflexivity.
Qed.

Lemma file_entry_readable (v : value) :
  readable v -> file_entry v = inr (entry_of v).
Proof.
  intros [Hnull Hundef]. unfold file_entry, entry_of, prop.
  destruct v; try congruence; reflexivity.
Qed.

Lemma map_items_readable (items : list value) :
  Forall readable items ->
  Js.map_items file_entry items = inr (map entry_of items).
Proof.
  induction 1 as [| v items Hv _ IH]; simpl.
  - reflexivity.
  - rewrite (file_entry_readable v Hv), IH. reflexivity.
Qed.

Lemma get_errno_truthy (data : value) (n : Z) :
  Js.get data "errno" = inr (VNum n) -> Js.truthy data = true.
Proof. destruct data; simpl; intros H; try discriminate; reflexivity. Qed.

Lemma is_alias_In (h : string) :
  Part0.is_alias h = true <-> In h Part0.TERABOX_DOMAINS.
Proof.
  unfold Part0.is_alias. rewrite existsb_exists. split.
  - intros [x [Hin Heq]]. apply String.eqb_eq in Heq. subst. exact Hin.
  - intros Hin. exists h. split; [exact Hin | apply String.eqb_refl].
Qed.

Lemma get_defined (data : value) (a b : string) (x : value) :
  Js.get data a = inr x -> exists y, Js.get data b = inr y.
Proof. destruct data; simpl; intros H; try discriminate; eauto. Qed.

(** ** The lookups *)

Section Lookups.

Variable net : request -> fetch_reply.

Lemma Index_read_response_success (data : value) :
  Js.get data "errno" = inr (VNum 0) ->
  Index.read_response (Response true (inr data)) = inr (Success data).
Proof.
  intros H. unfold Index.read_response, errno_is_zero. simpl.
  rewrite (get_errno_truthy _ _ H), H. reflexivity.
Qed.

Lemma Index_read_response_failure (resp : response) :
  lookup_failure (Resolved resp) ->
  exists errno error, Index.read_response resp = inr (Failure errno error).
Proof.
  inversion 1 as [| body | data n Herrno Hn]; subst;
    unfold Index.read_response; simpl.
  - eauto.
  - unfold errno_is_zero. rewrite Herrno. simpl.
    destruct (get_defined _ _ "errmsg" _ Herrno) as [msg ->].
    destruct (Z.eqb_spec n 0) as [-> | _]; [congruence |].
    rewrite andb_false_r. simpl. eauto.
Qed.

Lemma Index_fetchShortUrlInfo_run (shortUrl cookie host : string) :
  Io.run net (Index.fetchShortUrlInfo shortUrl cookie host) =
  (inr match net (Index.shortUrlInfo_request shortUrl cookie host) with
       | Rejected e => Failure VUndefined (VStr ("Network error: " ++ message e))
       | Resolved resp =>
           match Index.read_response resp with
           | inr result => result
           | inl e => Failure VUndefined (VStr ("Network error: " ++ message e))
           end
       end,
   [Index.shortUrlInfo_request shortUrl cookie host]).
Proof.
  unfold Index.fetchShortUrlInfo.
  rewrite run_try_catch, run_bind, run_fetch.
  destruct (net _) as [e | resp]; [reflexivity |].
  rewrite run_lift. destruct (Index.read_response resp); reflexivity.
Qed.

Lemma Part0_read_response_success (api_error request_error : string)
      (data : value) :
  Js.get data "errno" = inr (VNum 0) ->
  Part0.read_response api_error request_error (Response true (inr data))
  = inr (Success data).
Proof.
  intros H. unfold Part0.read_response, errno_is_zero. simpl.
  rewrite (get_errno_truthy _ _ H), H. reflexivity.
Qed.

Lemma Part0_read_response_failure (api_error request_error : string)
      (resp : response) :
  lookup_failure (Resolved resp) ->
  exists errno error,
    Part0.read_response api_error request_error resp
    = inr (Failure errno error).
Proof.
  inversion 1 as [| body | data n Herrno Hn]; subst;
    unfold Part0.read_response; simpl.
  - eauto.
  - unfold errno_is_zero. rewrite Herrno. simpl.
    destruct (get_defined _ _ "errmsg" _ Herrno) as [msg ->].
    destruct (Z.eqb_spec n 0) as [-> | _]; [congruence |].
    rewrite andb_false_r. simpl. eauto.
Qed.

Lemma Part0_fetchShortUrlInfo_run (shortUrl cookie host : string) :
  Io.run net (Part0.fetchShortUrlInfo shortUrl cookie host) =
  (inr match net (Part0.shortUrlInfo_request shortUrl cookie host) with
       | Rejected _ => Failure VUndefined (VStr "Network error")
       | Resolved resp =>
           match Part0.read_response "API error" "Request failed" resp with
           | inr result => result
           | inl _ => Failure VUndefined (VStr "Network error")
           end
       end,
   [Part0.shortUrlInfo_request shortUrl cookie host]).
Proof.
  unfold Part0.fetchShortUrlInfo.
  rewrite run_try_catch, run_bind, run_fetch.
  destruct (net _) as [e | resp]; [reflexivity |].
  rewrite run_lift. destruct (Part0.read_response _ _ resp); reflexivity.
Qed.

Lemma Part0_fetchShareListFallback_run (shortUrl : string) :
  Io.run net (Part0.fetchShareListFallback shortUrl) =
  (inr match net (Part0.shareList_request shortUrl) with
       | Rejected _ => Failure VUndefined (VStr "Network error")
       | Resolved resp =>
           match Part0.read_response "Fallback error" "Fallback failed" resp with
           | inr result => result
           | inl _ => Failure VUndefined (VStr "Network error")
           end
       end,
   [Part0.shareList_request shortUrl]).
Proof.
  unfold Part0.fetchShareListFallback.
  rewrite run_try_catch, run_bind, run_fetch.
  destruct (net _) as [e | resp]; [reflexivity |].
  rewrite run_lift. destruct (Part0.read_response _ _ resp); reflexivity.
Qed.

End Lookups.

(** ** The result mapping *)

Lemma payload_list_get (data : value) (items : list value) :
  payload_list data = Some items ->
  exists list, Js.get data "list" = inr list
               /\ Js.or_else list (VArr []) = VArr items.
Proof.
  unfold payload_list. destruct (Js.get data "list") as [e | list]; [discriminate |].
  destruct (Js.or_else list (VArr [])) eqn:E; try discriminate.
  intros H. injection H as <-. eauto.
Qed.

Lemma Part0_file_listing_shape (data : value) (e : bool) (n : nat)
      (fs : list FileEntry) :
  Part0.file_listing data = inr (CheckFiles e n fs) ->
  exists items, payload_list data = Some items
                /\ n = List.length items
                /\ List.length fs = n
                /\ e = (0 <? n)%nat.
Proof.
  unfold Part0.file_listing, payload_list.
  destruct (Js.get data "list") as [err | list]; simpl; [discriminate |].
  destruct (Js.or_else list (VArr [])) as [| | | | | items |]; try discriminate.
  destruct (Js.map_items file_entry items) as [err | files] eqn:E;
    simpl; [discriminate |].
  intros H. injection H as <- <- <-. exists items.
  rewrite (map_items_length _ _ _ E). auto.
Qed.

Lemma Part0_file_listing_readable (data : value) (items : list value) :
  payload_list data = Some items -> Forall readable items ->
  Part0.file_listing data
  = inr (CheckFiles (0 <? List.length items)%nat (List.length items)
                    (map entry_of items)).
Proof.
  intros Hlist Hitems. destruct (payload_list_get _ _ Hlist) as [list [Hget Hor]].
  unfold Part0.file_listing. rewrite Hget. simpl. rewrite Hor.
  rewrite (map_items_readable _ Hitems). reflexivity.
Qed.

Lemma Index_check_result_shape (result : ApiResult) (e : bool) (n : nat)
      (fs : list FileEntry) :
  Index.check_result result = inr (CheckFiles e n fs) ->
  e = true /\ List.length fs = n /\ (1 <= n)%nat.
Proof.
  destruct result as [data | errno error]; simpl; [| discriminate].
  destruct (Js.get data "list") as [err | list]; simpl; [discriminate |].
  destruct (Js.or_else list (VArr [])) as [| | | | s | items | fields]; simpl;
    try discriminate.
  - destruct (Z.of_nat (String.length s) =? 0)%Z; discriminate.
  - destruct (Z.eqb_spec (Z.of_nat (List.length items)) 0) as [Hz | Hnz];
      [discriminate |].
    destruct (Js.map_items file_entry items) as [err | files] eqn:E;
      simpl; [discriminate |].
    intros H. injection H as <- <- <-.
    rewrite (map_items_length _ _ _ E). repeat split. lia.
  - destruct (Js.is_zero (Js.lookup "length" fields)); discriminate.
Qed.

Lemma Index_check_result_readable (data : value) (items : list value) :
  payload_list data = Some items -> items <> [] -> Forall readable items ->
  Index.check_result (Success data)
  = inr (CheckFiles true (List.length items) (map entry_of items)).
Proof.
  intros Hlist Hne Hitems.
  destruct (payload_list_get _ _ Hlist) as [list [Hget Hor]].
  unfold Index.check_result. rewrite Hget. simpl. rewrite Hor. simpl.
  destruct (Z.eqb_spec (Z.of_nat (List.length items)) 0) as [Hz | Hnz].
  - destruct items; [congruence | simpl in Hz; lia].
  - rewrite (map_items_readable _ Hitems). reflexivity.
Qed.

Lemma Index_check_result_empty (data : value) :
  payload_list data = Some [] ->
  Index.check_result (Success data) = inr (CheckError (VStr "No files found")).
Proof.
  intros Hlist. destruct (payload_list_get _ _ Hlist) as [list [Hget Hor]].
  unfold Index.check_result. rewrite Hget. simpl. rewrite Hor. reflexivity.
Qed.

Lemma payload_list_array (data : value) (items : list value) :
  Js.get data "list" = inr (VArr items) -> payload_list data = Some items.
Proof. intros H. unfold payload_list. rewrite H. reflexivity. Qed.

Lemma payload_list_absent (data : value) :
  Js.get data "list" = inr VUndefined -> payload_list data = Some [].
Proof. intros H. unfold payload_list. rewrite H. reflexivity. Qed.

(** ** The pipelines *)

Section Pipelines.

Variable api : UrlApi.
Variable net : request -> fetch_reply.

Lemma Index_checkUrl_unparsed (url cookie host : string) :
  URL_parse api url = None ->
  Io.run net (Index.checkUrl api url cookie host)
  = (inr (CheckError (VStr "Invalid URL format")), []).
Proof. intros H. unfold Index.checkUrl. rewrite H. reflexivity. Qed.

Lemma Index_checkUrl_no_shortUrl (url cookie host : string) (urlObj : URL) :
  URL_parse api url = Some urlObj ->
  missing (Index.shortUrl_of urlObj url) = true ->
  Io.run net (Index.checkUrl api url cookie host)
  = (inr (CheckError (VStr "Could not parse Short URL")), []).
Proof. intros H1 H2. unfold Index.checkUrl. rewrite H1, H2. reflexivity. Qed.

Lemma Index_checkUrl_lookup (url cookie host : string) (urlObj : URL)
      (result : ApiResult) :
  URL_parse api url = Some urlObj ->
  missing (Index.shortUrl_of urlObj url) = false ->
  let shortUrl := strip_one (the (Index.shortUrl_of urlObj url)) in
  Io.outcome net (Index.fetchShortUrlInfo shortUrl cookie host) = inr result ->
  Io.run net (Index.checkUrl api url cookie host)
  = (inr (or_check_failed_because (Index.check_result result)),
     [Index.shortUrlInfo_request shortUrl cookie host]).
Proof.
  intros H1 H2 shortUrl. unfold Io.outcome, Index.checkUrl.
  rewrite H1, H2, run_try_catch, run_bind. fold shortUrl.
  rewrite Index_fetchShortUrlInfo_run. name_lookup_result. intros H. injection H as ->.
  rewrite run_lift. destruct (Index.check_result result); reflexivity.
Qed.

Lemma Part0_checkUrl_no_shortUrl (url cookie host : string) :
  missing (Part0.shortUrl_of (Part0.convertToDefaultHost api url host)) = true ->
  Io.run net (Part0.checkUrl api url cookie host)
  = (inr (CheckError (VStr "Invalid URL")), []).
Proof. intros H. unfold Part0.checkUrl. cbv zeta. rewrite H. reflexivity. Qed.

Section Lookup.

Variables url cookie host shortUrl : string.

Hypothesis extracted :
  Part0.shortUrl_of (Part0.convertToDefaultHost api url host) = Some shortUrl.

Lemma Part0_shortUrl_present :
  missing (Part0.shortUrl_of (Part0.convertToDefaultHost api url host)) = false.
Proof.
  rewrite extracted. simpl. revert extracted.
  generalize (Part0.convertToDefaultHost api url host). intros n.
  unfold Part0.shortUrl_of, Part0.match_surl, match_s_path.
  destruct (JsString.match_lit_run "surl=" _ n) as [surl |] eqn:E1.
  - intros H. injection H as <-. exact (match_lit_run_nonempty _ _ _ _ E1).
  - destruct (JsString.match_lit_run "/s/" _ n) as [raw |] eqn:E2;
      [| discriminate].
    intros H. injection H as <-. apply strip_one_nonempty.
    exact (match_lit_run_nonempty _ _ _ _ E2).
Qed.

Lemma Part0_checkUrl_primary (data : value) :
  Io.outcome net (Part0.fetchShortUrlInfo shortUrl cookie host)
  = inr (Success data) ->
  Io.run net (Part0.checkUrl api url cookie host)
  = (inr (or_check_failed (Part0.file_listing data)),
     [Part0.shortUrlInfo_request shortUrl cookie host]).
Proof.
  unfold Io.outcome, Part0.checkUrl. cbv zeta.
  rewrite Part0_shortUrl_present, extracted. simpl the.
  rewrite run_try_catch, run_bind, Part0_fetchShortUrlInfo_run.
  name_lookup_result. intros H. injection H as ->. rewrite run_lift.
  destruct (Part0.file_listing data); reflexivity.
Qed.

Lemma Part0_checkUrl_fallback (errno error : value) (result : ApiResult) :
  Io.outcome net (Part0.fetchShortUrlInfo shortUrl cookie host)
  = inr (Failure errno error) ->
  Io.outcome net (Part0.fetchShareListFallback shortUrl) = inr result ->
  Io.run net (Part0.checkUrl api url cookie host)
  = (inr match result with
         | Success data => or_check_failed (Part0.file_listing data)
         | Failure _ _ => CheckError (VStr "File not found or deleted")
         end,
     [Part0.shortUrlInfo_request shortUrl cookie host;
      Part0.shareList_request shortUrl]).
Proof.
  unfold Io.outcome, Part0.checkUrl. cbv zeta.
  rewrite Part0_shortUrl_present, extracted. simpl the.
  rewrite run_try_catch, run_bind, Part0_fetchShortUrlInfo_run.
  name_lookup_result. intros H. injection H as ->.
  rewrite run_bind, Part0_fetchShareListFallback_run.
  name_lookup_result. intros H. injection H as ->.
  destruct result as [data | en er]; [| reflexivity].
  rewrite run_lift. destruct (Part0.file_listing data); reflexivity.
Qed.

End Lookup.

End Pipelines.

(** ** What [checkUrl] sends and returns, whatever the network does *)

Section Always.

Variable api : UrlApi.
Variable net : request -> fetch_reply.
Variables url cookie host : string.

Lemma Index_lookup_returns (shortUrl : string) :
  exists result,
    Io.run net (Index.fetchShortUrlInfo shortUrl cookie host)
    = (inr result, [Index.shortUrlInfo_request shortUrl cookie host]).
Proof. rewrite Index_fetchShortUrlInfo_run. eauto. Qed.

Lemma Part0_lookup_returns (shortUrl : string) :
  exists result,
    Io.run net (Part0.fetchShortUrlInfo shortUrl cookie host)
    = (inr result, [Part0.shortUrlInfo_request shortUrl cookie host]).
Proof. rewrite Part0_fetchShortUrlInfo_run. eauto. Qed.

Lemma Part0_fallback_returns (shortUrl : string) :
  exists result,
    Io.run net (Part0.fetchShareListFallback shortUrl)
    = (inr result, [Part0.shareList_request shortUrl]).
Proof. rewrite Part0_fetchShareListFallback_run. eauto. Qed.

(** [checkUrl] of [index.js] returns, after at most one request. *)
Lemma Index_checkUrl_cases :
  (exists error,
      Io.run net (Index.checkUrl api url cookie host)
      = (inr (CheckError (VStr error)), []))
  \/ (exists shortUrl result,
         Io.run net (Index.checkUrl api url cookie host)
         = (inr (or_check_failed_because (Index.check_result result)),
            [Index.shortUrlInfo_request shortUrl cookie host])).
Proof.
  destruct (URL_parse api url) as [urlObj |] eqn:Hparse.
  - destruct (missing (Index.shortUrl_of urlObj url)) eqn:Hmissing.
    + left. eexists. eapply Index_checkUrl_no_shortUrl; eassumption.
    + right.
      destruct (Index_lookup_returns
                  (strip_one (the (Index.shortUrl_of urlObj url))))
        as [result Hrun].
      exists (strip_one (the (Index.shortUrl_of urlObj url))), result.
      apply (Index_checkUrl_lookup api net url cookie host urlObj result
               Hparse Hmissing).
      unfold Io.outcome. rewrite Hrun. reflexivity.
  - left. eexists. apply Index_checkUrl_unparsed. exact Hparse.
Qed.

(** [checkUrl] of [part_000] returns, after no request, after the primary
    one, or after the primary and the fallback one. *)
Lemma Part0_checkUrl_cases :
  Io.run net (Part0.checkUrl api url cookie host)
  = (inr (CheckError (VStr "Invalid URL")), [])
  \/ (exists shortUrl data,
         Io.run net (Part0.checkUrl api url cookie host)
         = (inr (or_check_failed (Part0.file_listing data)),
            [Part0.shortUrlInfo_request shortUrl cookie host]))
  \/ (exists shortUrl data,
         Io.run net (Part0.checkUrl api url cookie host)
         = (inr (or_check_failed (Part0.file_listing data)),
            [Part0.shortUrlInfo_request shortUrl cookie host;
             Part0.shareList_request shortUrl]))
  \/ (exists shortUrl,
         Io.run net (Part0.checkUrl api url cookie host)
         = (inr (CheckError (VStr "File not found or deleted")),
            [Part0.shortUrlInfo_request shortUrl cookie host;
             Part0.shareList_request shortUrl])).
Proof.
  destruct (Part0.shortUrl_of (Part0.convertToDefaultHost api url host))
    as [shortUrl |] eqn:Hshort.
  - right.
    destruct (Part0_lookup_returns shortUrl) as [[data | errno error] Hp].
    + left. exists shortUrl, data.
      apply (Part0_checkUrl_primary api net url cookie host shortUrl Hshort).
      unfold Io.outcome. rewrite Hp. reflexivity.
    + right.
      destruct (Part0_fallback_returns shortUrl) as [fallback Hf].
      assert (Hrun := Part0_checkUrl_fallback api net url cookie host shortUrl
                        Hshort errno error fallback).
      unfold Io.outcome in Hrun. rewrite Hp, Hf in Hrun.
      specialize (Hrun eq_refl eq_refl).
      destruct fallback as [data | en er]; [left | right]; eauto.
  - left. apply Part0_checkUrl_no_shortUrl. rewrite Hshort. reflexivity.
Qed.

Lemma Index_checkUrl_files (e : bool) (n : nat) (fs : list FileEntry) :
  Io.outcome net (Index.checkUrl api url cookie host) = inr (CheckFiles e n fs) ->
  e = true /\ List.length fs = n /\ (1 <= n)%nat.
Proof.
  unfold Io.outcome.
  destruct Index_checkUrl_cases as [[error ->] | [shortUrl [result ->]]];
    simpl; [discriminate |].
  destruct (Index.check_result result) as [err | r] eqn:E; simpl;
    [discriminate |].
  intros H. injection H as ->. exact (Index_check_result_shape _ _ _ _ E).
Qed.

Lemma Part0_checkUrl_files (e : bool) (n : nat) (fs : list FileEntry) :
  Io.outcome net (Part0.checkUrl api url cookie host) = inr (CheckFiles e n fs) ->
  List.length fs = n /\ e = (0 <? n)%nat.
Proof.
  unfold Io.outcome.
  destruct Part0_checkUrl_cases
    as [-> | [[shortUrl [data ->]] | [[shortUrl [data ->]] | [shortUrl ->]]]];
    simpl; try discriminate;
    (destruct (Part0.file_listing data) as [err | r] eqn:E; simpl;
     [discriminate |]);
    intros H; injection H as ->;
    destruct (Part0_file_listing_shape _ _ _ _ E) as [items [_ [_ [? ?]]]];
    auto.
Qed.

End Always.

(** ** Lookups by what the network answers *)

Section Answers.

Variable net : request -> fetch_reply.

Lemma Index_lookup_success (shortUrl cookie host : string) (data : value) :
  provider_success (net (Index.shortUrlInfo_request shortUrl cookie host)) data ->
  Io.outcome net (Index.fetchShortUrlInfo shortUrl cookie host)
  = inr (Success data).
Proof.
  intros [Hreply Herrno]. unfold Io.outcome.
  rewrite Index_fetchShortUrlInfo_run, Hreply.
  rewrite (Index_read_response_success _ Herrno). reflexivity.
Qed.

Lemma Part0_lookup_success (shortUrl cookie host : string) (data : value) :
  provider_success (net (Part0.shortUrlInfo_request shortUrl cookie host)) data ->
  Io.outcome net (Part0.fetchShortUrlInfo shortUrl cookie host)
  = inr (Success data).
Proof.
  intros [Hreply Herrno]. unfold Io.outcome.
  rewrite Part0_fetchShortUrlInfo_run, Hreply.
  rewrite (Part0_read_response_success _ _ _ Herrno). reflexivity.
Qed.

Lemma Part0_fallback_success (shortUrl : string) (data : value) :
  provider_success (net (Part0.shareList_request shortUrl)) data ->
  Io.outcome net (Part0.fetchShareListFallback shortUrl) = inr (Success data).
Proof.
  intros [Hreply Herrno]. unfold Io.outcome.
  rewrite Part0_fetchShareListFallback_run, Hreply.
  rewrite (Part0_read_response_success _ _ _ Herrno). reflexivity.
Qed.

Lemma Part0_lookup_failure (shortUrl cookie host : string) :
  lookup_failure (net (Part0.shortUrlInfo_request shortUrl cookie host)) ->
  exists errno error,
    Io.outcome net (Part0.fetchShortUrlInfo shortUrl cookie host)
    = inr (Failure errno error).
Proof.
  intros H. unfold Io.outcome. rewrite Part0_fetchShortUrlInfo_run.
  destruct (net _) as [e | resp]; simpl; [eauto |].
  destruct (Part0_read_response_failure "API error" "Request failed" resp H)
    as [errno [error ->]].
  eauto.
Qed.

Lemma Part0_fallback_failure (shortUrl : string) :
  lookup_failure (net (Part0.shareList_request shortUrl)) ->
  exists errno error,
    Io.outcome net (Part0.fetchShareListFallback shortUrl)
    = inr (Failure errno error).
Proof.
  intros H. unfold Io.outcome. rewrite Part0_fetchShareListFallback_run.
  destruct (net _) as [e | resp]; simpl; [eauto |].
  destruct (Part0_read_response_failure "Fallback error" "Fallback failed"
              resp H) as [errno [error ->]].
  eauto.
Qed.

End Answers.

(** * The claims *)

(** ** Host Normalizer *)




(** ** HTTP Front Door *)

(** C7. On [GET /] (a parameter is absent when the handler's test [!p] holds
    of it: not given, or given empty): with [url] and [cookie] both absent
    the two applications answer 200 with their description document; with
    [url] present and [cookie] absent both answer 401 with
    [{error: "Missing 'cookie' parameter"}]; with [url] absent and [cookie]
    present [index.js] answers 400 with [{error: "Missing 'url' parameter"}],
    and [part_000] does not: it answers 200 with its description
    document. *)
Theorem get_root_validation (api : UrlApi) (q : query) :
  (missing (q_url q) = true -> missing (q_cookie q) = true ->
   Index.get_root api q = Ret (HttpResponse 200 Index.api_info)
   /\ Part0.get_root api q = Ret (HttpResponse 200 Part0.api_info))
  /\ (missing (q_url q) = false -> missing (q_cookie q) = true ->
      Index.get_root api q
      = Ret (HttpResponse 401 (VObj [("error", VStr "Missing 'cookie' parameter")]))
      /\ Part0.get_root api q
         = Ret (HttpResponse 401 (VObj [("error", VStr "Missing 'cookie' parameter")])))
  /\ (missing (q_url q) = true -> missing (q_cookie q) = false ->
      Index.get_root api q
      = Ret (HttpResponse 400 (VObj [("error", VStr "Missing 'url' parameter")]))
      /\ Part0.get_root api q = Ret (HttpResponse 200 Part0.api_info)).
Proof.
  unfold Index.get_root, Part0.get_root.
  split; [| split]; intros Hurl Hcookie; rewrite Hurl, Hcookie; split;
    reflexivity.
Qed.

Lemma get_root_validation_witness :
  (Index.get_root PlainUrl.api (Query None None None)
   = Ret (HttpResponse 200 Index.api_info)
   /\ Part0.get_root PlainUrl.api (Query None None None)
      = Ret (HttpResponse 200 Part0.api_info))
  /\ (Index.get_root PlainUrl.api
        (Query (Some "https://terabox.com/s/1abc") None None)
      = Ret (HttpResponse 401 (VObj [("error", VStr "Missing 'cookie' parameter")]))
      /\ Part0.get_root PlainUrl.api
           (Query (Some "https://terabox.com/s/1abc") None None)
         = Ret (HttpResponse 401
                  (VObj [("error", VStr "Missing 'cookie' parameter")])))
  /\ (Index.get_root PlainUrl.api (Query None (Some "ndus=abc123") None)
      = Ret (HttpResponse 400 (VObj [("error", VStr "Missing 'url' parameter")]))
      /\ Part0.get_root PlainUrl.api (Query None (Some "ndus=abc123") None)
         = Ret (HttpResponse 200 Part0.api_info)).
Proof.
  split; [| split].
  - apply (get_root_validation PlainUrl.api (Query None None None));
      reflexivity.
  - apply (get_root_validation PlainUrl.api
             (Query (Some "https://terabox.com/s/1abc") None None));
      reflexivity.
  - apply (get_root_validation PlainUrl.api
             (Query None (Some "ndus=abc123") None));
      reflexivity.
Defined.

(** ** Check results *)

(** C2. A result returned by [checkUrl], in [index.js] and in [part_000],
    whose [exists] is [true] has a [files] list whose length is its
    [total_files]. *)
Theorem files_length_is_total_files (api : UrlApi) (net : request -> fetch_reply)
        (url cookie host : string) (r : CheckResult) :
  Io.outcome net (Index.checkUrl api url cookie host) = inr r
  \/ Io.outcome net (Part0.checkUrl api url cookie host) = inr r ->
  exists_of r = true ->
  exists fs, r = CheckFiles true (List.length fs) fs.
Proof.
  intros Hrun Hexists.
  destruct r as [e n fs | error]; [| discriminate]. simpl in Hexists. subst e.
  exists fs. destruct Hrun as [Hrun | Hrun].
  - destruct (Index_checkUrl_files _ _ _ _ _ _ _ _ Hrun) as [_ [<- _]].
    reflexivity.
  - destruct (Part0_checkUrl_files _ _ _ _ _ _ _ _ Hrun) as [<- _].
    reflexivity.
Qed.

Lemma files_length_is_total_files_witness :
  Io.outcome (Net.serving Net.one_file)
    (Index.checkUrl PlainUrl.api "https://terabox.com/s/1abc" "ndus=abc123"
       DEFAULT_HOST)
  = inr (CheckFiles true 1 [MkFileEntry (VStr "a.txt") (VNum 10) (VNum 0)])
  /\ exists fs,
      CheckFiles true 1 [MkFileEntry (VStr "a.txt") (VNum 10) (VNum 0)]
      = CheckFiles true (List.length fs) fs.
Proof.
  split; [reflexivity |].
  apply (files_length_is_total_files PlainUrl.api (Net.serving Net.one_file)
           "https://terabox.com/s/1abc" "ndus=abc123" DEFAULT_HOST).
  - left. reflexivity.
  - reflexivity.
Defined.

(** C10. A result returned by [checkUrl], in [index.js] and in [part_000] and
    whatever the network answers, whose [exists] is [true] lists at least
    one file: [files] is not empty and [total_files] is at least 1. *)
Theorem exists_lists_a_file (api : UrlApi) (net : request -> fetch_reply)
        (url cookie host : string) (r : CheckResult) :
  Io.outcome net (Index.checkUrl api url cookie host) = inr r
  \/ Io.outcome net (Part0.checkUrl api url cookie host) = inr r ->
  exists_of r = true ->
  exists n fs, r = CheckFiles true n fs /\ fs <> [] /\ (1 <= n)%nat.
Proof.
  intros Hrun Hexists.
  destruct r as [e n fs | error]; [| discriminate]. simpl in Hexists. subst e.
  exists n, fs. split; [reflexivity |].
  assert (List.length fs = n /\ (1 <= n)%nat) as [Hlen Hn].
  { destruct Hrun as [Hrun | Hrun].
    - destruct (Index_checkUrl_files _ _ _ _ _ _ _ _ Hrun) as [_ [? ?]]. auto.
    - destruct (Part0_checkUrl_files _ _ _ _ _ _ _ _ Hrun) as [? Hpos].
      split; [assumption |]. symmetry in Hpos. apply Nat.ltb_lt in Hpos. lia. }
  split; [| exact Hn]. intros ->. simpl in Hlen. lia.
Qed.

Lemma exists_lists_a_file_witness :
  Io.outcome (Net.split (Rejected (Error "fetch failed"))
                (Resolved (Response true (inr Net.one_file))))
    (Part0.checkUrl PlainUrl.api "https://terabox.com/s/1abc" "ndus=abc123"
       DEFAULT_HOST)
  = inr (CheckFiles true 1 [MkFileEntry (VStr "a.txt") (VNum 10) (VNum 0)])
  /\ exists n fs,
      CheckFiles true 1 [MkFileEntry (VStr "a.txt") (VNum 10) (VNum 0)]
      = CheckFiles true n fs /\ fs <> [] /\ (1 <= n)%nat.
Proof.
  split; [reflexivity |].
  apply (exists_lists_a_file PlainUrl.api
           (Net.split (Rejected (Error "fetch failed"))
              (Resolved (Response true (inr Net.one_file))))
           "https://terabox.com/s/1abc" "ndus=abc123" DEFAULT_HOST).
  - right. reflexivity.
  - reflexivity.
Defined.

(** C4. On a successful provider response (2xx, [errno] 0) whose [list] is
    empty or absent, [checkUrl] of [index.js] returns
    [{exists: false, error: "No files found"}] and [checkUrl] of [part_000]
    returns [{exists: false, total_files: 0, files: []}]: the two results
    differ, and [exists] is [false] in both. *)
Theorem empty_list_reported_differently
        (api : UrlApi) (net : request -> fetch_reply) (url cookie host : string)
        (data : value) (urlObj : URL) (shortUrl : string) :
  Js.get data "list" = inr (VArr []) \/ Js.get data "list" = inr VUndefined ->
  URL_parse api url = Some urlObj ->
  missing (Index.shortUrl_of urlObj url) = false ->
  provider_success
    (net (Index.shortUrlInfo_request
            (strip_one (the (Index.shortUrl_of urlObj url))) cookie host)) data ->
  Part0.shortUrl_of (Part0.convertToDefaultHost api url host) = Some shortUrl ->
  provider_success (net (Part0.shortUrlInfo_request shortUrl cookie host)) data ->
  Io.outcome net (Index.checkUrl api url cookie host)
  = inr (CheckError (VStr "No files found"))
  /\ Io.outcome net (Part0.checkUrl api url cookie host)
     = inr (CheckFiles false 0 [])
  /\ Io.outcome net (Index.checkUrl api url cookie host)
     <> Io.outcome net (Part0.checkUrl api url cookie host)
  /\ exists_of (CheckError (VStr "No files found")) = false
  /\ exists_of (CheckFiles false 0 []) = false.
Proof.
  intros Hlist Hparse Hshort HreplyI Hextract HreplyP.
  assert (Hempty : payload_list data = Some []).
  { destruct Hlist as [H | H];
      [apply payload_list_array | apply payload_list_absent]; exact H. }
  assert (HI : Io.outcome net (Index.checkUrl api url cookie host)
               = inr (CheckError (VStr "No files found"))).
  { unfold Io.outcome at 1.
    rewrite (Index_checkUrl_lookup api net url cookie host urlObj (Success data)
               Hparse Hshort (Index_lookup_success _ _ _ _ _ HreplyI)).
    rewrite (Index_check_result_empty _ Hempty). reflexivity. }
  assert (HP : Io.outcome net (Part0.checkUrl api url cookie host)
               = inr (CheckFiles false 0 [])).
  { unfold Io.outcome at 1.
    rewrite (Part0_checkUrl_primary api net url cookie host shortUrl Hextract
               data (Part0_lookup_success _ _ _ _ _ HreplyP)).
    rewrite (Part0_file_listing_readable data [] Hempty (Forall_nil _)).
    reflexivity. }
  rewrite HI, HP. repeat split. discriminate.
Qed.

Lemma empty_list_reported_differently_witness :
  Io.outcome (Net.serving Net.no_files)
    (Index.checkUrl PlainUrl.api "https://terabox.com/s/1abc" "ndus=abc123"
       DEFAULT_HOST)
  = inr (CheckError (VStr "No files found"))
  /\ Io.outcome (Net.serving Net.no_files)
       (Part0.checkUrl PlainUrl.api "https://terabox.com/s/1abc" "ndus=abc123"
          DEFAULT_HOST)
     = inr (CheckFiles false 0 [])
  /\ Io.outcome (Net.serving Net.no_list)
       (Index.checkUrl PlainUrl.api "https://terabox.com/s/1abc" "ndus=abc123"
          DEFAULT_HOST)
     <> Io.outcome (Net.serving Net.no_list)
          (Part0.checkUrl PlainUrl.api "https://terabox.com/s/1abc" "ndus=abc123"
             DEFAULT_HOST).
Proof.
  destruct (empty_list_reported_differently PlainUrl.api
              (Net.serving Net.no_files) "https://terabox.com/s/1abc"
              "ndus=abc123" DEFAULT_HOST Net.no_files
              _ "abc" (or_introl eq_refl) eq_refl eq_refl
              (conj eq_refl eq_refl) eq_refl (conj eq_refl eq_refl))
    as [HI [HP _]].
  destruct (empty_list_reported_differently PlainUrl.api
              (Net.serving Net.no_list) "https://terabox.com/s/1abc"
              "ndus=abc123" DEFAULT_HOST Net.no_list
              _ "abc" (or_intror eq_refl) eq_refl eq_refl
              (conj eq_refl eq_refl) eq_refl (conj eq_refl eq_refl))
    as [_ [_ [Hdiff _]]].
  split; [exact HI |]. split; [exact HP | exact Hdiff].
Defined.

(** C8. With [data] a successful primary response whose [list] is an array
    of entries (values that are not [null]), [checkUrl] returns the entries
    mapped one by one and in order, each FileEntry carrying the entry's
    [server_filename], [size] and [isdir] as they are: in [part_000]
    with [exists] telling whether there is an entry, in [index.js], when
    there is an entry, with [exists] [true].  For
    [{errno: 0, list: [{server_filename: "a.txt", size: 10, isdir: 0}]}]
    both return
    [{exists: true, total_files: 1, files: [{name: "a.txt", size: 10, isdir: 0}]}]. *)
Theorem files_mapped_in_order
        (api : UrlApi) (net : request -> fetch_reply) (url cookie host : string)
        (data : value) (items : list value) :
  Js.get data "list" = inr (VArr items) ->
  Forall readable items ->
  (forall urlObj,
      URL_parse api url = Some urlObj ->
      missing (Index.shortUrl_of urlObj url) = false ->
      provider_success
        (net (Index.shortUrlInfo_request
                (strip_one (the (Index.shortUrl_of urlObj url))) cookie host))
        data ->
      items <> [] ->
      Io.outcome net (Index.checkUrl api url cookie host)
      = inr (CheckFiles true (List.length items) (map entry_of items)))
  /\ (forall shortUrl,
         Part0.shortUrl_of (Part0.convertToDefaultHost api url host)
         = Some shortUrl ->
         provider_success
           (net (Part0.shortUrlInfo_request shortUrl cookie host)) data ->
         Io.outcome net (Part0.checkUrl api url cookie host)
         = inr (CheckFiles (0 <? List.length items)%nat (List.length items)
                           (map entry_of items)))
  /\ (forall i entry,
         nth_error items i = Some entry ->
         nth_error (map entry_of items) i
         = Some {| name := prop entry "server_filename";
                   size := prop entry "size";
                   isdir := prop entry "isdir" |})
  /\ (data = Net.one_file ->
      CheckFiles true (List.length items) (map entry_of items)
      = CheckFiles true 1 [MkFileEntry (VStr "a.txt") (VNum 10) (VNum 0)]).
Proof.
  intros Hlist Hitems.
  assert (Hpayload := payload_list_array _ _ Hlist).
  split; [| split; [| split]].
  - intros urlObj Hparse Hshort Hreply Hne. unfold Io.outcome.
    rewrite (Index_checkUrl_lookup api net url cookie host urlObj (Success data)
               Hparse Hshort (Index_lookup_success _ _ _ _ _ Hreply)).
    rewrite (Index_check_result_readable _ _ Hpayload Hne Hitems). reflexivity.
  - intros shortUrl Hextract Hreply. unfold Io.outcome.
    rewrite (Part0_checkUrl_primary api net url cookie host shortUrl Hextract
               data (Part0_lookup_success _ _ _ _ _ Hreply)).
    rewrite (Part0_file_listing_readable _ _ Hpayload Hitems). reflexivity.
  - intros i entry Hnth. rewrite nth_error_map, Hnth. reflexivity.
  - intros ->. simpl in Hlist. injection Hlist as <-. reflexivity.
Qed.

Lemma files_mapped_in_order_witness :
  Io.outcome (Net.serving Net.one_file)
    (Index.checkUrl PlainUrl.api "https://terabox.com/s/1abc" "ndus=abc123"
       DEFAULT_HOST)
  = inr (CheckFiles true 1 [MkFileEntry (VStr "a.txt") (VNum 10) (VNum 0)])
  /\ Io.outcome (Net.serving Net.one_file)
       (Part0.checkUrl PlainUrl.api "https://terabox.com/s/1abc" "ndus=abc123"
          DEFAULT_HOST)
     = inr (CheckFiles true 1 [MkFileEntry (VStr "a.txt") (VNum 10) (VNum 0)]).
Proof.
  destruct (files_mapped_in_order PlainUrl.api (Net.serving Net.one_file)
              "https://terabox.com/s/1abc" "ndus=abc123" DEFAULT_HOST
              Net.one_file
              [VObj [("server_filename", VStr "a.txt"); ("size", VNum 10);
                     ("isdir", VNum 0)]])
    as [HI [HP _]].
  - reflexivity.
  - constructor; [split; discriminate | constructor].
  - split.
    + apply (HI _ eq_refl eq_refl (conj eq_refl eq_refl)). discriminate.
    + apply (HP "abc"); [reflexivity | split; reflexivity].
Defined.

(** ** Primary and fallback lookup *)

Lemma primary_is_not_fallback (shortUrl shortUrl' cookie host : string) :
  Part0.shareList_request shortUrl'
  <> Part0.shortUrlInfo_request shortUrl cookie host.
Proof. unfold Part0.shareList_request, Part0.shortUrlInfo_request. congruence. Qed.

(** C5. [checkUrl] of [part_000] sends nothing when it finds no short URL.
    Once it has one: when the primary
    lookup succeeds the primary request is the only one sent; when it fails
    the fallback request follows it, and if the fallback lookup succeeds
    with [data], the result is the result mapping of [data], that is, for a
    [list] of entries (absent: no entry), [exists] telling whether there is
    an entry, [total_files] their number, [files] the entries mapped one by
    one in order.  So the fallback request is sent only after a failed
    primary lookup. *)
Theorem fallback_only_after_primary_failure
        (api : UrlApi) (net : request -> fetch_reply) (url cookie host : string) :
  let sent := Io.requests net (Part0.checkUrl api url cookie host) in
  let returned := Io.outcome net (Part0.checkUrl api url cookie host) in
  (Part0.shortUrl_of (Part0.convertToDefaultHost api url host) = None ->
   sent = [])
  /\ forall shortUrl,
      Part0.shortUrl_of (Part0.convertToDefaultHost api url host)
      = Some shortUrl ->
      let primary :=
        Io.outcome net (Part0.fetchShortUrlInfo shortUrl cookie host) in
      let fallback := Io.outcome net (Part0.fetchShareListFallback shortUrl) in
      (forall data,
          primary = inr (Success data) ->
          sent = [Part0.shortUrlInfo_request shortUrl cookie host])
      /\ (forall errno error,
             primary = inr (Failure errno error) ->
             sent = [Part0.shortUrlInfo_request shortUrl cookie host;
                     Part0.shareList_request shortUrl]
             /\ forall data,
                 fallback = inr (Success data) ->
                 returned = inr (or_check_failed (Part0.file_listing data))
                 /\ forall items,
                     payload_list data = Some items -> Forall readable items ->
                     returned
                     = inr (CheckFiles (0 <? List.length items)%nat
                                       (List.length items) (map entry_of items)))
      /\ (In (Part0.shareList_request shortUrl) sent ->
          exists errno error, primary = inr (Failure errno error)).
Proof.
  intros sent returned. split.
  { intros Hnone. unfold sent, Io.requests.
    rewrite Part0_checkUrl_no_shortUrl; [reflexivity |].
    rewrite Hnone. reflexivity. }
  intros shortUrl Hextract primary fallback.
  assert (Hsuccess : forall data,
             primary = inr (Success data) ->
             sent = [Part0.shortUrlInfo_request shortUrl cookie host]).
  { intros data Hp. unfold sent, Io.requests.
    rewrite (Part0_checkUrl_primary api net url cookie host shortUrl Hextract
               data Hp).
    reflexivity. }
  split; [exact Hsuccess |]. split.
  - intros errno error Hp.
    destruct (Part0_fallback_returns net shortUrl) as [result Hf].
    assert (Hrun := Part0_checkUrl_fallback api net url cookie host shortUrl
                      Hextract errno error result Hp).
    unfold Io.outcome in Hrun at 1. rewrite Hf in Hrun.
    specialize (Hrun eq_refl). split.
    + unfold sent, Io.requests. rewrite Hrun. reflexivity.
    + intros data Hfb. unfold fallback, Io.outcome in Hfb. rewrite Hf in Hfb.
      simpl in Hfb. injection Hfb as ->.
      assert (Hret : returned = inr (or_check_failed (Part0.file_listing data))).
      { unfold returned, Io.outcome. rewrite Hrun. reflexivity. }
      split; [exact Hret |].
      intros items Hlist Hitems. rewrite Hret.
      rewrite (Part0_file_listing_readable _ _ Hlist Hitems). reflexivity.
  - intros Hin.
    destruct (Part0_lookup_returns net cookie host shortUrl)
      as [[data | errno error] Hp].
    + assert (Hp' : primary = inr (Success data)).
      { unfold primary, Io.outcome. rewrite Hp. reflexivity. }
      rewrite (Hsuccess data Hp') in Hin.
      destruct Hin as [Heq | []].
      symmetry in Heq. exfalso. exact (primary_is_not_fallback _ _ _ _ Heq).
    + exists errno, error. unfold primary, Io.outcome. rewrite Hp. reflexivity.
Qed.

Lemma fallback_only_after_primary_failure_witness :
  Io.run (Net.split (Resolved (Response true (inr Net.not_found)))
            (Resolved (Response true (inr Net.one_file))))
    (Part0.checkUrl PlainUrl.api "https://terabox.com/s/1abc" "ndus=abc123"
       DEFAULT_HOST)
  = (inr (CheckFiles true 1 [MkFileEntry (VStr "a.txt") (VNum 10) (VNum 0)]),
     [Part0.shortUrlInfo_request "abc" "ndus=abc123" DEFAULT_HOST;
      Part0.shareList_request "abc"])
  /\ Io.requests (Net.serving Net.one_file)
       (Part0.checkUrl PlainUrl.api "https://terabox.com/s/1abc" "ndus=abc123"
          DEFAULT_HOST)
     = [Part0.shortUrlInfo_request "abc" "ndus=abc123" DEFAULT_HOST]
  /\ Io.requests (Net.serving Net.one_file)
       (Part0.checkUrl PlainUrl.api "https://terabox.com/folder" "ndus=abc123"
          DEFAULT_HOST)
     = [].
Proof.
  split; [| split].
  - destruct (fallback_only_after_primary_failure PlainUrl.api
                (Net.split (Resolved (Response true (inr Net.not_found)))
                   (Resolved (Response true (inr Net.one_file))))
                "https://terabox.com/s/1abc" "ndus=abc123" DEFAULT_HOST)
      as [_ Hsome].
    destruct (Hsome "abc" eq_refl) as [_ [Hfailed _]].
    destruct (Hfailed (VNum 105) (VStr "share not found") eq_refl)
      as [Hsent Hmapped].
    destruct (Hmapped Net.one_file eq_refl) as [_ Hfiles].
    specialize (Hfiles
                  [VObj [("server_filename", VStr "a.txt"); ("size", VNum 10);
                         ("isdir", VNum 0)]] eq_refl).
    unfold Io.requests in Hsent. unfold Io.outcome in Hfiles.
    rewrite (surjective_pairing (Io.run _ _)), Hsent, Hfiles.
    + reflexivity.
    + constructor; [split; discriminate | constructor].
  - destruct (fallback_only_after_primary_failure PlainUrl.api
                (Net.serving Net.one_file)
                "https://terabox.com/s/1abc" "ndus=abc123" DEFAULT_HOST)
      as [_ Hsome].
    destruct (Hsome "abc" eq_refl) as [Hsucceeded _].
    exact (Hsucceeded Net.one_file eq_refl).
  - destruct (fallback_only_after_primary_failure PlainUrl.api
                (Net.serving Net.one_file)
                "https://terabox.com/folder" "ndus=abc123" DEFAULT_HOST)
      as [Hnone _].
    exact (Hnone eq_refl).
Defined.

(** ** Failures *)

Lemma run_then_ret {A B : Type} (net : request -> fetch_reply) (m : io A)
      (f : A -> B) :
  Io.run net (x <- m ;; Ret (f x)) =
  match Io.run net m with
  | (inr a, sent) => (inr (f a), sent)
  | (inl e, sent) => (inl e, sent)
  end.
Proof.
  rewrite run_bind. destruct (Io.run net m) as [[e | a] sent]; [reflexivity |].
  simpl. rewrite app_nil_r. reflexivity.
Qed.

Lemma Part0_checkUrl_returns (api : UrlApi) (net : request -> fetch_reply)
      (url cookie host : string) :
  exists r, Io.outcome net (Part0.checkUrl api url cookie host) = inr r.
Proof.
  unfold Io.outcome.
  destruct (Part0_checkUrl_cases api net url cookie host)
    as [-> | [[s [d ->]] | [[s [d ->]] | [s ->]]]]; simpl; eauto.
Qed.

Lemma Index_checkUrl_returns (api : UrlApi) (net : request -> fetch_reply)
      (url cookie host : string) :
  exists r, Io.outcome net (Index.checkUrl api url cookie host) = inr r.
Proof.
  unfold Io.outcome.
  destruct (Index_checkUrl_cases api net url cookie host)
    as [[error ->] | [s [result ->]]]; simpl; eauto.
Qed.

(** C3. In [part_000], for a request whose [url] and [cookie] pass the
    validation of the handler: the answer is 200 with the result of
    [checkUrl], whatever the network does; when the primary and the fallback
    lookup both fail (a network error, a response that is not 2xx, an
    [errno] other than 0) the body is
    [{exists: false, error: "File not found or deleted"}].  [checkUrl] never
    throws. *)
Theorem both_lookups_fail (api : UrlApi) (net : request -> fetch_reply)
        (q : query) :
  missing (q_url q) = false ->
  missing (q_cookie q) = false ->
  Part0.looks_like_terabox (the (q_url q)) = true ->
  let url := the (q_url q) in
  let cookie := with_ndus_prefix (the (q_cookie q)) in
  let host := host_or_default (q_host q) in
  (forall shortUrl,
      Part0.shortUrl_of (Part0.convertToDefaultHost api url host) = Some shortUrl ->
      lookup_failure (net (Part0.shortUrlInfo_request shortUrl cookie host)) ->
      lookup_failure (net (Part0.shareList_request shortUrl)) ->
      Io.outcome net (Part0.get_root api q)
      = inr (HttpResponse 200
               (VObj [("exists", VBool false);
                      ("error", VStr "File not found or deleted")]))
      /\ "File not found or deleted" <> EmptyString)
  /\ (exists r,
         Io.outcome net (Part0.checkUrl api url cookie host) = inr r
         /\ Io.outcome net (Part0.get_root api q)
            = inr (HttpResponse 200 (CheckResult_json r)))
  /\ (forall url' cookie' host',
         exists r, Io.outcome net (Part0.checkUrl api url' cookie' host') = inr r).
Proof.
  intros Hurl Hcookie Hvalid url cookie host.
  assert (Hroot : Io.run net (Part0.get_root api q) =
                  match Io.run net (Part0.checkUrl api url cookie host) with
                  | (inr r, sent) => (inr (HttpResponse 200 (CheckResult_json r)), sent)
                  | (inl e, sent) => (inl e, sent)
                  end).
  { unfold Part0.get_root. cbv zeta. rewrite Hurl, Hcookie, Hvalid. simpl negb.
    cbv iota. apply (run_then_ret net). }
  split; [| split].
  - intros shortUrl Hextract Hprimary Hfallback.
    destruct (Part0_lookup_failure net _ _ _ Hprimary) as [errno [error Hp]].
    destruct (Part0_fallback_failure net _ Hfallback) as [en [er Hf]].
    split; [| discriminate].
    unfold Io.outcome. rewrite Hroot.
    rewrite (Part0_checkUrl_fallback api net url cookie host shortUrl Hextract
               errno error (Failure en er) Hp Hf).
    reflexivity.
  - destruct (Part0_checkUrl_returns api net url cookie host) as [r Hr].
    exists r. split; [exact Hr |].
    unfold Io.outcome in *. rewrite Hroot.
    destruct (Io.run net (Part0.checkUrl api url cookie host)) as [[e | r'] sent];
      simpl in Hr; [discriminate |].
    injection Hr as ->. reflexivity.
  - intros url' cookie' host'. apply Part0_checkUrl_returns.
Qed.

Lemma both_lookups_fail_witness :
  Io.outcome (Net.split (Resolved (Response true (inr Net.not_found)))
                (Resolved (Response false (inl (Error "Unexpected token")))))
    (Part0.get_root PlainUrl.api
       (Query (Some "https://terabox.com/s/1abc") (Some "abc123") None))
  = inr (HttpResponse 200
           (VObj [("exists", VBool false);
                  ("error", VStr "File not found or deleted")])).
Proof.
  destruct (both_lookups_fail PlainUrl.api
              (Net.split (Resolved (Response true (inr Net.not_found)))
                 (Resolved (Response false (inl (Error "Unexpected token")))))
              (Query (Some "https://terabox.com/s/1abc") (Some "abc123") None)
              eq_refl eq_refl eq_refl) as [Hfail _].
  apply (Hfail "abc").
  - reflexivity.
  - apply (provider_error Net.not_found 105); [reflexivity | discriminate].
  - apply transport_error.
Defined.

(** ** Short-Link Extractor *)

Lemma Part0_first_request (api : UrlApi) (net : request -> fetch_reply)
      (url cookie host shortUrl : string) :
  Part0.shortUrl_of (Part0.convertToDefaultHost api url host) = Some shortUrl ->
  hd_error (Io.requests net (Part0.checkUrl api url cookie host))
  = Some (Part0.shortUrlInfo_request shortUrl cookie host).
Proof.
  intros Hextract. unfold Io.requests.
  destruct (Part0_lookup_returns net cookie host shortUrl)
    as [[data | errno error] Hp].
  - rewrite (Part0_checkUrl_primary api net url cookie host shortUrl Hextract data).
    + reflexivity.
    + unfold Io.outcome. rewrite Hp. reflexivity.
  - destruct (Part0_fallback_returns net shortUrl) as [result Hf].
    rewrite (Part0_checkUrl_fallback api net url cookie host shortUrl Hextract
               errno error result).
    + reflexivity.
    + unfold Io.outcome. rewrite Hp. reflexivity.
    + unfold Io.outcome. rewrite Hf. reflexivity.
Qed.

(** C1, as amended.  In [index.js] the identifier found by either
    strategy (the [surl] parameter, else the [/s/<token>] segment) goes
    through [strip_one] before the request is made.  In [part_000] only
    the [/s/<token>] segment does: an identifier matched by [surl=] is
    sent as it is.  [strip_one] removes a leading ['1'] from a string of
    at least two code units and leaves any other string as it is. *)
Theorem leading_one_stripped (api : UrlApi) (net : request -> fetch_reply)
        (url cookie host : string) :
  (forall urlObj shortUrl,
      URL_parse api url = Some urlObj ->
      searchParams_has urlObj "surl" = true
      /\ searchParams_get urlObj "surl" = Some shortUrl
      \/ searchParams_has urlObj "surl" = false
         /\ match_s_path url = Some shortUrl ->
      shortUrl <> EmptyString ->
      Io.requests net (Index.checkUrl api url cookie host)
      = [Index.shortUrlInfo_request (strip_one shortUrl) cookie host])
  /\ (forall rawUrl,
         Part0.match_surl (Part0.convertToDefaultHost api url host) = None ->
         match_s_path (Part0.convertToDefaultHost api url host) = Some rawUrl ->
         hd_error (Io.requests net (Part0.checkUrl api url cookie host))
         = Some (Part0.shortUrlInfo_request (strip_one rawUrl) cookie host))
  /\ (forall surl,
         Part0.match_surl (Part0.convertToDefaultHost api url host) = Some surl ->
         hd_error (Io.requests net (Part0.checkUrl api url cookie host))
         = Some (Part0.shortUrlInfo_request surl cookie host))
  /\ (forall s,
         strip_one s = match s with
                       | String "1" (String c rest) => String c rest
                       | _ => s
                       end).
Proof.
  split; [| split; [| split]].
  - intros urlObj shortUrl Hparse Hstrategy Hne.
    assert (Hshort : Index.shortUrl_of urlObj url = Some shortUrl).
    { unfold Index.shortUrl_of.
      destruct Hstrategy as [[-> H] | [-> H]]; exact H. }
    assert (Hpresent : missing (Index.shortUrl_of urlObj url) = false).
    { rewrite Hshort. simpl. apply is_empty_false. exact Hne. }
    destruct (Index_lookup_returns net cookie host (strip_one shortUrl))
      as [result Hrun].
    assert (H := Index_checkUrl_lookup api net url cookie host urlObj result
                   Hparse Hpresent).
    rewrite Hshort in H. simpl the in H. unfold Io.requests. rewrite H.
    + reflexivity.
    + unfold Io.outcome. rewrite Hrun. reflexivity.
  - intros rawUrl Hsurl Hpath. apply Part0_first_request.
    unfold Part0.shortUrl_of. rewrite Hsurl, Hpath. reflexivity.
  - intros surl Hsurl. apply Part0_first_request.
    unfold Part0.shortUrl_of. rewrite Hsurl. reflexivity.
  - exact strip_one_spec.
Qed.

Lemma leading_one_stripped_witness :
  Io.requests Net.offline
    (Index.checkUrl PlainUrl.api "https://www.terabox.com/sharing/link?surl=1abc"
       "ndus=abc123" DEFAULT_HOST)
  = [Index.shortUrlInfo_request "abc" "ndus=abc123" DEFAULT_HOST]
  /\ Io.requests Net.offline
       (Index.checkUrl PlainUrl.api "https://terabox.com/s/1abcXYZ"
          "ndus=abc123" DEFAULT_HOST)
     = [Index.shortUrlInfo_request "abcXYZ" "ndus=abc123" DEFAULT_HOST]
  /\ hd_error (Io.requests Net.offline
                 (Part0.checkUrl PlainUrl.api "https://terabox.com/s/1abcXYZ"
                    "ndus=abc123" DEFAULT_HOST))
     = Some (Part0.shortUrlInfo_request "abcXYZ" "ndus=abc123" DEFAULT_HOST)
  /\ hd_error (Io.requests Net.offline
                 (Part0.checkUrl PlainUrl.api
                    "https://www.terabox.com/sharing/link?surl=xyz12"
                    "ndus=abc123" DEFAULT_HOST))
     = Some (Part0.shortUrlInfo_request "xyz12" "ndus=abc123" DEFAULT_HOST).
Proof.
  split; [| split; [| split]].
  - destruct (leading_one_stripped PlainUrl.api Net.offline
                "https://www.terabox.com/sharing/link?surl=1abc"
                "ndus=abc123" DEFAULT_HOST) as [Hindex _].
    apply (Hindex _ "1abc" eq_refl (or_introl (conj eq_refl eq_refl))).
    discriminate.
  - destruct (leading_one_stripped PlainUrl.api Net.offline
                "https://terabox.com/s/1abcXYZ" "ndus=abc123" DEFAULT_HOST)
      as [Hindex _].
    apply (Hindex _ "1abcXYZ" eq_refl (or_intror (conj eq_refl eq_refl))).
    discriminate.
  - destruct (leading_one_stripped PlainUrl.api Net.offline
                "https://terabox.com/s/1abcXYZ" "ndus=abc123" DEFAULT_HOST)
      as [_ [Hpath _]].
    apply (Hpath "1abcXYZ"); reflexivity.
  - destruct (leading_one_stripped PlainUrl.api Net.offline
                "https://www.terabox.com/sharing/link?surl=xyz12"
                "ndus=abc123" DEFAULT_HOST) as [_ [_ [Hsurl _]]].
    apply (Hsurl "xyz12"); reflexivity.
Defined.

(** C1, as stated, fails in [part_000]: on
    [https://www.terabox.com/sharing/link?surl=1abc] the [surl=] pattern
    extracts [1abc], which begins with ['1'] and has four code units, and
    the primary request is made for [1abc], not for [abc]. *)
Lemma surl_keeps_leading_one :
  let url := "https://www.terabox.com/sharing/link?surl=1abc" in
  Part0.match_surl (Part0.convertToDefaultHost PlainUrl.api url DEFAULT_HOST)
  = Some "1abc"
  /\ strip_one "1abc" = "abc"
  /\ hd_error (Io.requests Net.offline
                 (Part0.checkUrl PlainUrl.api url "ndus=abc123" DEFAULT_HOST))
     = Some (Part0.shortUrlInfo_request "1abc" "ndus=abc123" DEFAULT_HOST)
  /\ hd_error (Io.requests Net.offline
                 (Part0.checkUrl PlainUrl.api url "ndus=abc123" DEFAULT_HOST))
     <> Some (Part0.shortUrlInfo_request (strip_one "1abc") "ndus=abc123"
                DEFAULT_HOST).
Proof.
  cbv zeta. split; [reflexivity |]. split; [reflexivity |].
  split; [reflexivity |]. vm_compute. discriminate.
Qed.

(** ** Cookie normalization *)





(** * Further properties of the code *)

(** ** Strings: prefixes, occurrences and pattern matches *)

Lemma append_assoc (a b c : string) :
  ((a ++ b) ++ c = a ++ (b ++ c))%string.
Proof. induction a as [| x a IH]; simpl; [reflexivity | rewrite IH; reflexivity]. Qed.

Lemma append_empty_r (a : string) : (a ++ EmptyString)%string = a.
Proof. induction a as [| x a IH]; simpl; [reflexivity | rewrite IH; reflexivity]. Qed.

Lemma prefix_cons (a b : ascii) (lit s : string) :
  String.prefix (String a lit) (String b s) = true
  <-> a = b /\ String.prefix lit s = true.
Proof.
  simpl. destruct (ascii_dec a b) as [-> | Hne].
  - split; [auto | intros [_ H]; exact H].
  - split; [discriminate | intros [H _]; contradiction].
Qed.

Lemma prefix_empty (s : string) : String.prefix EmptyString s = true.
Proof. destruct s; reflexivity. Qed.

Lemma prefix_iff (lit s : string) :
  String.prefix lit s = true <-> exists rest, s = (lit ++ rest)%string.
Proof.
  revert s. induction lit as [| a lit IH]; intros s.
  - rewrite prefix_empty. split; [intros _; exists s; reflexivity | reflexivity].
  - destruct s as [| b s].
    + simpl. split; [discriminate | intros [rest H]; discriminate H].
    + rewrite prefix_cons, IH. split.
      * intros [-> [rest ->]]. exists rest. reflexivity.
      * intros [rest H]. simpl in H. injection H as -> ->. eauto.
Qed.

Lemma substring_from_append (lit rest : string) :
  JsString.substring_from (String.length lit) (lit ++ rest) = rest.
Proof.
  induction lit as [| a lit IH]; simpl; [destruct rest; reflexivity | exact IH].
Qed.

Lemma includes_eq (lit s : string) :
  JsString.includes lit s =
  String.prefix lit s
  || match s with
     | EmptyString => false
     | String _ s' => JsString.includes lit s'
     end.
Proof. destruct s; reflexivity. Qed.

Lemma includes_iff (lit s : string) :
  JsString.includes lit s = true
  <-> exists pre post, s = (pre ++ lit ++ post)%string.
Proof.
  induction s as [| b s IH]; rewrite includes_eq.
  - rewrite orb_false_r, prefix_iff. split.
    + intros [rest H]. exists EmptyString, rest. exact H.
    + intros [pre [post H]]. destruct pre; [eauto | discriminate H].
  - rewrite orb_true_iff, prefix_iff, IH. split.
    + intros [[rest H] | [pre [post H]]].
      * exists EmptyString, rest. exact H.
      * exists (String b pre), post. simpl. rewrite H. reflexivity.
    + intros [[| a pre] [post H]].
      * left. exists post. exact H.
      * right. simpl in H. injection H as _ ->. eauto.
Qed.

Lemma take_while_split (p : ascii -> bool) (s : string) :
  exists rest,
    s = (JsString.take_while p s ++ rest)%string
    /\ (rest = EmptyString \/ exists c r, rest = String c r /\ p c = false).
Proof.
  induction s as [| a s [rest [Heq Hrest]]]; simpl.
  - exists EmptyString. auto.
  - destruct (p a) eqn:E.
    + exists rest. simpl. rewrite <- Heq. auto.
    + exists (String a s). split; [reflexivity |]. right. eauto.
Qed.

Lemma take_while_all (p : ascii -> bool) (s : string) (c : ascii) :
  In c (list_ascii_of_string (JsString.take_while p s)) -> p c = true.
Proof.
  induction s as [| a s IH]; simpl; [intros [] |].
  destruct (p a) eqn:E; simpl; [| intros []].
  intros [<- | H]; [exact E | exact (IH H)].
Qed.

Lemma take_while_cons (p : ascii -> bool) (c : ascii) (rest : string) :
  p c = true ->
  JsString.is_empty (JsString.take_while p (String c rest)) = false.
Proof. intros H. simpl. rewrite H. reflexivity. Qed.

(** What [match_lit_run] looks at in [s] itself: the run of code units
    outside [stop] that follows a leading [lit]. *)
Lemma match_here (lit : string) (stop : ascii -> bool) (s : string) :
  JsString.is_empty
    (if String.prefix lit s
     then JsString.take_while (fun c => negb (stop c))
            (JsString.substring_from (String.length lit) s)
     else EmptyString) = false
  <-> matches_at lit stop s 0.
Proof.
  split.
  - destruct (String.prefix lit s) eqn:E; [| discriminate].
    apply prefix_iff in E. destruct E as [rest ->].
    rewrite substring_from_append. destruct rest as [| c rest]; [discriminate |].
    simpl. destruct (stop c) eqn:Ec; [discriminate |]. intros _.
    exists EmptyString, c, rest. auto.
  - intros [pre [c [rest [-> [Hlen Hc]]]]].
    destruct pre; [| discriminate Hlen]. simpl.
    assert (E : String.prefix lit (lit ++ String c rest) = true)
      by (apply prefix_iff; eauto).
    rewrite E, substring_from_append. apply take_while_cons.
    rewrite Hc. reflexivity.
Qed.

Lemma matches_at_succ (lit : string) (stop : ascii -> bool) (a : ascii)
      (s : string) (n : nat) :
  matches_at lit stop (String a s) (S n) <-> matches_at lit stop s n.
Proof.
  split.
  - intros [pre [c [rest [Heq [Hlen Hc]]]]].
    destruct pre as [| b pre]; [discriminate Hlen |].
    simpl in Heq, Hlen. injection Heq as _ ->. injection Hlen as Hlen.
    exists pre, c, rest. auto.
  - intros [pre [c [rest [-> [Hlen Hc]]]]].
    exists (String a pre), c, rest. simpl. auto.
Qed.

(** [match_lit_run] returns the run of code units outside [stop] that
    follows the leftmost occurrence of [lit] followed by such a code
    unit. *)
Lemma match_lit_run_sound (lit : string) (stop : ascii -> bool) (s m : string) :
  JsString.match_lit_run lit stop s = Some m ->
  exists pre post,
    s = (pre ++ lit ++ m ++ post)%string
    /\ m <> EmptyString /\ free_of stop m /\ stops_at stop post
    /\ forall n, matches_at lit stop s n -> String.length pre <= n.
Proof.
  induction s as [| a s IH]; rewrite match_lit_run_eq; cbv zeta;
    match goal with |- context [JsString.is_empty ?h] => set (here := h) end;
    destruct (JsString.is_empty here) eqn:E; intros H; try discriminate.
  - injection H as <-. apply match_here in E.
    destruct E as [pre [c [rest [Heq _]]]].
    destruct pre, lit; discriminate Heq.
  - destruct (IH H) as [pre [post [-> [Hne [Hfree [Hstop Hleft]]]]]].
    exists (String a pre), post. repeat split; auto.
    intros [| n] Hn.
    + apply match_here in Hn. fold here in Hn. congruence.
    + apply matches_at_succ in Hn. simpl. apply le_n_S. exact (Hleft n Hn).
  - injection H as <-. subst here.
    destruct (String.prefix lit (String a s)) eqn:Ep; [| discriminate].
    apply prefix_iff in Ep. destruct Ep as [rest Hs]. rewrite Hs in *.
    rewrite substring_from_append in *.
    destruct (take_while_split (fun c => negb (stop c)) rest)
      as [post [Hrest Hpost]].
    exists EmptyString, post. simpl. split; [rewrite <- Hrest; reflexivity |].
    split; [apply is_empty_false; exact E |]. split; [| split].
    + intros c Hc. apply take_while_all in Hc.
      destruct (stop c); [discriminate | reflexivity].
    + destruct Hpost as [-> | [c [r [-> Hc]]]]; [left; reflexivity |].
      right. exists c, r. split; [reflexivity |].
      destruct (stop c); [reflexivity | discriminate].
    + intros n _. apply Nat.le_0_l.
Qed.

(** [match_lit_run] finds nothing exactly when the pattern matches at no
    position. *)
Lemma match_lit_run_none (lit : string) (stop : ascii -> bool) (s : string) :
  JsString.match_lit_run lit stop s = None
  <-> forall n, ~ matches_at lit stop s n.
Proof.
  induction s as [| a s IH]; rewrite match_lit_run_eq; cbv zeta;
    match goal with |- context [JsString.is_empty ?h] => set (here := h) end;
    destruct (JsString.is_empty here) eqn:E.
  - split; [| reflexivity]. intros _ n [pre [c [rest [Heq _]]]].
    destruct pre, lit; discriminate Heq.
  - split; [discriminate |]. intros Hnone. exfalso.
    apply (Hnone 0). apply match_here. exact E.
  - rewrite IH. split.
    + intros Hnone [| n] Hn.
      * apply match_here in Hn. fold here in Hn. congruence.
      * apply matches_at_succ in Hn. exact (Hnone n Hn).
    + intros Hnone n Hn. apply (Hnone (S n)). apply matches_at_succ. exact Hn.
  - split; [discriminate |]. intros Hnone. exfalso.
    apply (Hnone 0). apply match_here. exact E.
Qed.

Lemma strip_one_suffix (s : string) :
  exists p, s = (p ++ strip_one s)%string.
Proof.
  rewrite strip_one_spec. destruct s as [| a [| c rest]].
  - exists EmptyString. reflexivity.
  - exists EmptyString. destruct a as [[] [] [] [] [] [] [] []]; reflexivity.
  - destruct (ascii_dec a "1") as [-> | Hne].
    + exists "1"%string. reflexivity.
    + exists EmptyString.
      destruct a as [[] [] [] [] [] [] [] []]; try reflexivity.
      exfalso. apply Hne. reflexivity.
Qed.

Lemma list_ascii_of_string_append (a b : string) :
  list_ascii_of_string (a ++ b)
  = list_ascii_of_string a ++ list_ascii_of_string b.
Proof. induction a as [| x a IH]; simpl; [reflexivity | rewrite IH; reflexivity]. Qed.

Lemma free_of_suffix (stop : ascii -> bool) (p s : string) :
  free_of stop (p ++ s) -> free_of stop s.
Proof.
  intros H c Hc. apply H. rewrite list_ascii_of_string_append.
  apply in_or_app. right. exact Hc.
Qed.

(** ** The short-link extractors *)

(** X1. What the two patterns extract.  When [url.match(/\/s\/([^\/\?&]+)/)]
    finds a token, the URL is [pre ++ "/s/" ++ token ++ post] where the
    token is not empty and has no ['/'], ['?'] or ['&'], [post] is empty or
    begins with one of these, and the pattern matches at no position before
    [pre]'s end: the token is the whole segment after the first [/s/] that
    has one.  The same holds of [/surl=([^&]+)/] with the literal [surl=]
    and the single delimiter ['&']. *)
Theorem extracted_token_sound (s m : string) :
  (match_s_path s = Some m ->
   exists pre post,
     s = (pre ++ "/s/" ++ m ++ post)%string
     /\ m <> EmptyString /\ free_of path_stop m /\ stops_at path_stop post
     /\ forall n, matches_at "/s/" path_stop s n -> String.length pre <= n)
  /\ (Part0.match_surl s = Some m ->
      exists pre post,
        s = (pre ++ "surl=" ++ m ++ post)%string
        /\ m <> EmptyString
        /\ free_of (fun c => Ascii.eqb c "&") m
        /\ stops_at (fun c => Ascii.eqb c "&") post
        /\ forall n,
            matches_at "surl=" (fun c => Ascii.eqb c "&") s n ->
            String.length pre <= n).
Proof. split; apply match_lit_run_sound. Qed.

Lemma extracted_token_sound_witness :
  exists pre post,
    "https://terabox.com/s//s/1abcXYZ?pwd=1"%string
    = (pre ++ "/s/" ++ "1abcXYZ" ++ post)%string
    /\ String.length pre <= 22
    /\ stops_at path_stop post.
Proof.
  destruct (extracted_token_sound "https://terabox.com/s//s/1abcXYZ?pwd=1"
              "1abcXYZ") as [Hpath _].
  destruct (Hpath eq_refl) as [pre [post [Heq [_ [_ [Hstop Hleft]]]]]].
  exists pre, post. split; [exact Heq |]. split; [| exact Hstop].
  apply Hleft. exists "https://terabox.com/s/"%string, "1"%char, "abcXYZ?pwd=1"%string.
  repeat split.
Defined.

(** X2. [part_000] finds no short URL in a (normalized) URL exactly when the
    URL has neither [surl=] followed by a code unit other than ['&'] nor
    [/s/] followed by a code unit other than ['/'], ['?'] and ['&']. *)
Theorem no_short_url_iff (s : string) :
  Part0.shortUrl_of s = None
  <-> (forall n, ~ matches_at "surl=" (fun c => Ascii.eqb c "&") s n)
      /\ (forall n, ~ matches_at "/s/" path_stop s n).
Proof.
  unfold Part0.shortUrl_of.
  rewrite <- (match_lit_run_none "surl="), <- (match_lit_run_none "/s/").
  fold (Part0.match_surl s). fold (match_s_path s).
  destruct (Part0.match_surl s) as [surl |].
  - split; [discriminate | intros [H _]; discriminate H].
  - destruct (match_s_path s) as [raw |].
    + split; [discriminate | intros [_ H]; discriminate H].
    + split; auto.
Qed.

Lemma no_short_url_iff_witness :
  Part0.shortUrl_of "https://terabox.com/s/?surl=&x=1" = None
  /\ (forall n, ~ matches_at "surl=" (fun c => Ascii.eqb c "&")
                    "https://terabox.com/s/?surl=&x=1" n)
  /\ (forall n, ~ matches_at "/s/" path_stop
                    "https://terabox.com/s/?surl=&x=1" n).
Proof.
  split; [reflexivity |].
  destruct (no_short_url_iff "https://terabox.com/s/?surl=&x=1") as [Hnone _].
  exact (Hnone eq_refl).
Defined.

(** X3. The identifier [part_000] extracts from a (normalized) URL is not
    empty, has no ['&'] and occurs in that URL. *)
Theorem part0_identifier_from_url (s id : string) :
  Part0.shortUrl_of s = Some id ->
  id <> EmptyString
  /\ free_of (fun c => Ascii.eqb c "&") id
  /\ JsString.includes id s = true.
Proof.
  unfold Part0.shortUrl_of.
  destruct (Part0.match_surl s) as [surl |] eqn:Esurl.
  - intros H. injection H as <-.
    destruct (match_lit_run_sound _ _ _ _ Esurl)
      as [pre [post [Heq [Hne [Hfree _]]]]].
    split; [exact Hne |]. split; [exact Hfree |].
    apply includes_iff. exists (pre ++ "surl=")%string, post.
    rewrite Heq, append_assoc. reflexivity.
  - destruct (match_s_path s) as [raw |] eqn:Epath; [| discriminate].
    intros H. injection H as <-.
    destruct (match_lit_run_sound _ _ _ _ Epath)
      as [pre [post [Heq [Hne [Hfree _]]]]].
    destruct (strip_one_suffix raw) as [p Hp].
    split; [| split].
    + apply is_empty_false, strip_one_nonempty, is_empty_false. exact Hne.
    + rewrite Hp in Hfree. apply free_of_suffix in Hfree.
      intros c Hc. specialize (Hfree c Hc). unfold path_stop in Hfree.
      apply orb_false_iff in Hfree. exact (proj2 Hfree).
    + apply includes_iff. exists (pre ++ "/s/" ++ p)%string, post.
      rewrite Heq. rewrite Hp at 1.
      rewrite !append_assoc. reflexivity.
Qed.

Lemma part0_identifier_from_url_witness :
  JsString.includes "abcXYZ" "https://dm.nephobox.com/s/1abcXYZ?pwd=1&x=2" = true.
Proof.
  apply (part0_identifier_from_url
           "https://dm.nephobox.com/s/1abcXYZ?pwd=1&x=2" "abcXYZ").
  reflexivity.
Defined.

(** ** The lookups *)

Lemma or_else_truthy (a b : value) :
  Js.truthy b = true -> Js.truthy (Js.or_else a b) = true.
Proof. intros H. unfold Js.or_else. destruct (Js.truthy a) eqn:E; assumption. Qed.

Lemma is_zero_inv (v : value) : Js.is_zero v = true -> v = VNum 0.
Proof.
  destruct v; simpl; try discriminate.
  intros H. apply Z.eqb_eq in H. subst. reflexivity.
Qed.

Lemma Part0_read_response_inv (api_error request_error : string)
      (resp : response) (data : value) :
  Part0.read_response api_error request_error resp = inr (Success data) ->
  resp = Response true (inr data) /\ Js.get data "errno" = inr (VNum 0).
Proof.
  destruct resp as [[] [e | body]]; unfold Part0.read_response; simpl;
    try discriminate.
  destruct (Js.truthy body && errno_is_zero body) eqn:E.
  - intros H. injection H as <-. apply andb_prop in E. destruct E as [_ E].
    unfold errno_is_zero in E.
    destruct (Js.get body "errno") as [e | v]; [discriminate |].
    rewrite (is_zero_inv v E). auto.
  - destruct (Js.get body "errno"); simpl; [discriminate |].
    destruct (Js.get body "errmsg"); simpl; discriminate.
Qed.

Lemma Part0_read_response_error (api_error request_error : string)
      (resp : response) (errno error : value) :
  api_error <> EmptyString -> request_error <> EmptyString ->
  Part0.read_response api_error request_error resp = inr (Failure errno error) ->
  Js.truthy error = true.
Proof.
  intros Ha Hr.
  destruct resp as [[] [e | body]]; unfold Part0.read_response; simpl;
    try discriminate.
  - destruct (Js.truthy body && errno_is_zero body); [discriminate |].
    destruct (Js.get body "errno"); simpl; [discriminate |].
    destruct (Js.get body "errmsg"); simpl; [discriminate |].
    intros H. injection H as _ <-. apply or_else_truthy. simpl.
    apply is_empty_false in Ha. rewrite Ha. reflexivity.
  - intros H. injection H as _ <-. simpl.
    apply is_empty_false in Hr. rewrite Hr. reflexivity.
  - intros H. injection H as _ <-. simpl.
    apply is_empty_false in Hr. rewrite Hr. reflexivity.
Qed.

Lemma Index_read_response_is_Part0 (resp : response) :
  Index.read_response resp
  = Part0.read_response "API error" "Request failed" resp.
Proof. reflexivity. Qed.

(** X4. Each lookup is a single attempt that always returns: whatever the
    network does, [fetchShortUrlInfo] (in both files) and
    [fetchShareListFallback] send exactly one request, never a second one,
    and return a result object instead of throwing. *)
Theorem lookups_single_attempt (net : request -> fetch_reply)
        (shortUrl cookie host : string) :
  (exists result,
      Io.run net (Index.fetchShortUrlInfo shortUrl cookie host)
      = (inr result, [Index.shortUrlInfo_request shortUrl cookie host]))
  /\ (exists result,
         Io.run net (Part0.fetchShortUrlInfo shortUrl cookie host)
         = (inr result, [Part0.shortUrlInfo_request shortUrl cookie host]))
  /\ (exists result,
         Io.run net (Part0.fetchShareListFallback shortUrl)
         = (inr result, [Part0.shareList_request shortUrl])).
Proof.
  rewrite Index_fetchShortUrlInfo_run, Part0_fetchShortUrlInfo_run,
    Part0_fetchShareListFallback_run.
  repeat split; eexists; reflexivity.
Qed.

(** X5. A lookup reports success exactly when the network answers 2xx with
    a JSON body whose [errno] is the number 0, and then [data] is that
    body: in [fetchShortUrlInfo] of both files and in
    [fetchShareListFallback]. *)
Theorem lookup_succeeds_iff (net : request -> fetch_reply)
        (shortUrl cookie host : string) (data : value) :
  (Io.outcome net (Index.fetchShortUrlInfo shortUrl cookie host)
   = inr (Success data)
   <-> provider_success
         (net (Index.shortUrlInfo_request shortUrl cookie host)) data)
  /\ (Io.outcome net (Part0.fetchShortUrlInfo shortUrl cookie host)
      = inr (Success data)
      <-> provider_success
            (net (Part0.shortUrlInfo_request shortUrl cookie host)) data)
  /\ (Io.outcome net (Part0.fetchShareListFallback shortUrl)
      = inr (Success data)
      <-> provider_success (net (Part0.shareList_request shortUrl)) data).
Proof.
  split; [| split]; (split; [| first [apply Index_lookup_success
                                     | apply Part0_lookup_success
                                     | apply Part0_fallback_success]]);
    unfold Io.outcome, provider_success;
    rewrite ?Index_fetchShortUrlInfo_run, ?Part0_fetchShortUrlInfo_run,
      ?Part0_fetchShareListFallback_run; cbn [fst];
    (destruct (net _) as [e | resp]; [discriminate |]);
    rewrite ?Index_read_response_is_Part0;
    (destruct (Part0.read_response _ _ resp) as [e | result] eqn:E;
     [discriminate |]);
    intros H; injection H as ->;
    destruct (Part0_read_response_inv _ _ _ _ E) as [-> Herrno]; auto.
Qed.

Lemma lookup_succeeds_iff_witness :
  Io.outcome (Net.serving Net.one_file)
    (Part0.fetchShareListFallback "abc") = inr (Success Net.one_file)
  /\ provider_success
       (Net.serving Net.one_file
          (Index.shortUrlInfo_request "abc" "ndus=abc123" DEFAULT_HOST))
       Net.one_file.
Proof.
  destruct (lookup_succeeds_iff (Net.serving Net.one_file) "abc" "ndus=abc123"
              DEFAULT_HOST Net.one_file) as [[Hindex _] [_ [_ Hfallback]]].
  split.
  - apply Hfallback. split; reflexivity.
  - apply Hindex. reflexivity.
Defined.

(** X6. A 2xx answer whose body is not JSON, or is the JSON [null], is
    reported as a network error: [part_000] returns
    [{success: false, error: "Network error"}] from both lookups, and
    [index.js] appends the message of the exception [response.json()]
    threw. *)
Theorem malformed_body_is_network_error (net : request -> fetch_reply)
        (shortUrl cookie host : string) (body : exn + value) :
  (exists e, body = inl e) \/ body = inr VNull ->
  (net (Part0.shortUrlInfo_request shortUrl cookie host)
   = Resolved (Response true body) ->
   Io.outcome net (Part0.fetchShortUrlInfo shortUrl cookie host)
   = inr (Failure VUndefined (VStr "Network error")))
  /\ (net (Part0.shareList_request shortUrl) = Resolved (Response true body) ->
      Io.outcome net (Part0.fetchShareListFallback shortUrl)
      = inr (Failure VUndefined (VStr "Network error")))
  /\ (forall e,
         body = inl e ->
         net (Index.shortUrlInfo_request shortUrl cookie host)
         = Resolved (Response true body) ->
         Io.outcome net (Index.fetchShortUrlInfo shortUrl cookie host)
         = inr (Failure VUndefined (VStr ("Network error: " ++ message e)))).
Proof.
  intros Hbody. unfold Io.outcome.
  rewrite Index_fetchShortUrlInfo_run, Part0_fetchShortUrlInfo_run,
    Part0_fetchShareListFallback_run. cbn [fst].
  split; [| split].
  - intros ->. destruct Hbody as [[e ->] | ->]; reflexivity.
  - intros ->. destruct Hbody as [[e ->] | ->]; reflexivity.
  - intros e -> ->. reflexivity.
Qed.

Lemma malformed_body_is_network_error_witness :
  Io.outcome (Net.serving VNull)
    (Part0.fetchShortUrlInfo "abc" "ndus=abc123" DEFAULT_HOST)
  = inr (Failure VUndefined (VStr "Network error"))
  /\ Io.outcome (fun _ => Resolved (Response true (inl (Error "Unexpected token <"))))
       (Index.fetchShortUrlInfo "abc" "ndus=abc123" DEFAULT_HOST)
     = inr (Failure VUndefined (VStr "Network error: Unexpected token <")).
Proof.
  split.
  - destruct (malformed_body_is_network_error (Net.serving VNull) "abc"
                "ndus=abc123" DEFAULT_HOST (inr VNull) (or_intror eq_refl))
      as [Hprimary _].
    exact (Hprimary eq_refl).
  - destruct (malformed_body_is_network_error
                (fun _ => Resolved (Response true (inl (Error "Unexpected token <"))))
                "abc" "ndus=abc123" DEFAULT_HOST
                (inl (Error "Unexpected token <"))
                (or_introl (ex_intro _ (Error "Unexpected token <") eq_refl)))
      as [_ [_ Hindex]].
    exact (Hindex _ eq_refl eq_refl).
Defined.

(** X7. The two [fetchShortUrlInfo] functions send the same request and
    agree on the answer: one succeeds exactly when the other does, with the
    same [data]; when they fail they report the same [errno], and the same
    [error] unless an exception was caught, where [part_000] says
    [Network error] and [index.js] adds the exception's message. *)
Theorem primary_lookups_agree (net : request -> fetch_reply)
        (shortUrl cookie host : string) :
  Index.shortUrlInfo_request shortUrl cookie host
  = Part0.shortUrlInfo_request shortUrl cookie host
  /\ Io.requests net (Index.fetchShortUrlInfo shortUrl cookie host)
     = Io.requests net (Part0.fetchShortUrlInfo shortUrl cookie host)
  /\ (forall data,
         Io.outcome net (Index.fetchShortUrlInfo shortUrl cookie host)
         = inr (Success data)
         <-> Io.outcome net (Part0.fetchShortUrlInfo shortUrl cookie host)
             = inr (Success data))
  /\ (forall errno error,
         Io.outcome net (Part0.fetchShortUrlInfo shortUrl cookie host)
         = inr (Failure errno error) ->
         exists error',
           Io.outcome net (Index.fetchShortUrlInfo shortUrl cookie host)
           = inr (Failure errno error')
           /\ (error' = error
               \/ error = VStr "Network error"
                  /\ exists m, error' = VStr ("Network error: " ++ m))).
Proof.
  unfold Io.outcome, Io.requests.
  rewrite Index_fetchShortUrlInfo_run, Part0_fetchShortUrlInfo_run. cbn [fst snd].
  change (Index.shortUrlInfo_request shortUrl cookie host)
    with (Part0.shortUrlInfo_request shortUrl cookie host).
  split; [reflexivity |]. split; [reflexivity |].
  destruct (net _) as [e | resp].
  - split.
    + intros data. split; discriminate.
    + intros errno error H. injection H as <- <-. eexists. split; [reflexivity |].
      right. split; [reflexivity |]. eexists. reflexivity.
  - rewrite Index_read_response_is_Part0.
    destruct (Part0.read_response _ _ resp) as [e | result].
    + split.
      * intros data. split; discriminate.
      * intros errno error H. injection H as <- <-. eexists.
        split; [reflexivity |]. right. split; [reflexivity |].
        eexists. reflexivity.
    + split.
      * intros data. reflexivity.
      * intros errno error H. exists error. split; [exact H | left; reflexivity].
Qed.

Lemma primary_lookups_agree_witness :
  Io.outcome (Net.serving Net.not_found)
    (Index.fetchShortUrlInfo "abc" "ndus=abc123" DEFAULT_HOST)
  = inr (Failure (VNum 105) (VStr "share not found"))
  /\ Io.outcome (Net.serving Net.one_file)
       (Part0.fetchShortUrlInfo "abc" "ndus=abc123" DEFAULT_HOST)
     = inr (Success Net.one_file).
Proof.
  split.
  - destruct (primary_lookups_agree (Net.serving Net.not_found) "abc"
                "ndus=abc123" DEFAULT_HOST) as [_ [_ [_ Hfail]]].
    destruct (Hfail (VNum 105) (VStr "share not found") eq_refl)
      as [error' [Hindex [-> | [Hnet _]]]];
      [exact Hindex | discriminate Hnet].
  - destruct (primary_lookups_agree (Net.serving Net.one_file) "abc"
                "ndus=abc123" DEFAULT_HOST) as [_ [_ [Hsucc _]]].
    apply (Hsucc Net.one_file). reflexivity.
Defined.

(** ** [checkUrl] *)

Lemma file_entry_inv (v : value) (f : FileEntry) :
  file_entry v = inr f -> readable v.
Proof. destruct v; simpl; intros H; try discriminate; split; discriminate. Qed.

Lemma map_items_readable_inv (items : list value) (fs : list FileEntry) :
  Js.map_items file_entry items = inr fs -> Forall readable items.
Proof.
  revert fs. induction items as [| v items IH]; intros fs; simpl.
  - constructor.
  - destruct (file_entry v) as [e | f] eqn:Ev; [discriminate |].
    destruct (Js.map_items file_entry items) as [e | fs'] eqn:E; [discriminate |].
    intros _. constructor; [exact (file_entry_inv _ _ Ev) | exact (IH fs' eq_refl)].
Qed.

Lemma Part0_file_listing_inv (data : value) (r : CheckResult) :
  Part0.file_listing data = inr r ->
  exists items fs,
    payload_list data = Some items /\ Forall readable items
    /\ r = CheckFiles (0 <? List.length items)%nat (List.length items) fs.
Proof.
  unfold Part0.file_listing, payload_list.
  destruct (Js.get data "list") as [err | list]; simpl; [discriminate |].
  destruct (Js.or_else list (VArr [])) as [| | | | | items |]; try discriminate.
  destruct (Js.map_items file_entry items) as [err | fs] eqn:E; simpl;
    [discriminate |].
  intros H. injection H as <-. exists items, fs.
  split; [reflexivity |]. split; [exact (map_items_readable_inv _ _ E) | reflexivity].
Qed.

(** X8. In [index.js] a failed lookup always carries a truthy [error], and
    [checkUrl] returns it as it is, so the default text of line 114 never
    replaces it; for a provider answer with a non-zero [errno] and a truthy
    [errmsg] the [error] returned is that [errmsg], whatever JSON value it
    is. *)
Theorem index_returns_lookup_error
        (api : UrlApi) (net : request -> fetch_reply) (url cookie host : string)
        (urlObj : URL) (errno error : value) :
  URL_parse api url = Some urlObj ->
  missing (Index.shortUrl_of urlObj url) = false ->
  let shortUrl := strip_one (the (Index.shortUrl_of urlObj url)) in
  Io.outcome net (Index.fetchShortUrlInfo shortUrl cookie host)
  = inr (Failure errno error) ->
  Js.truthy error = true
  /\ Io.outcome net (Index.checkUrl api url cookie host) = inr (CheckError error)
  /\ (forall data n errmsg,
         net (Index.shortUrlInfo_request shortUrl cookie host)
         = Resolved (Response true (inr data)) ->
         Js.get data "errno" = inr (VNum n) -> n <> 0%Z ->
         Js.get data "errmsg" = inr errmsg -> Js.truthy errmsg = true ->
         error = errmsg).
Proof.
  intros Hparse Hshort shortUrl Hfail.
  assert (Htruthy : Js.truthy error = true).
  { unfold Io.outcome in Hfail. rewrite Index_fetchShortUrlInfo_run in Hfail.
    cbn [fst] in Hfail. destruct (net _) as [e | resp].
    - injection Hfail as _ <-. reflexivity.
    - rewrite Index_read_response_is_Part0 in Hfail.
      destruct (Part0.read_response _ _ resp) as [e | result] eqn:E.
      + injection Hfail as _ <-. reflexivity.
      + injection Hfail as ->.
        apply (Part0_read_response_error "API error" "Request failed" resp
                 errno error); [discriminate | discriminate | exact E]. }
  split; [exact Htruthy |]. split.
  - unfold Io.outcome at 1.
    rewrite (Index_checkUrl_lookup api net url cookie host urlObj _
               Hparse Hshort Hfail).
    simpl. unfold Js.or_else. rewrite Htruthy. reflexivity.
  - intros data n errmsg Hreply Herrno Hn Hmsg Hmsgtruthy.
    unfold Io.outcome in Hfail. rewrite Index_fetchShortUrlInfo_run in Hfail.
    cbn [fst] in Hfail. rewrite Hreply in Hfail.
    unfold Index.read_response, errno_is_zero in Hfail. simpl in Hfail.
    rewrite Herrno, Hmsg in Hfail. simpl in Hfail.
    destruct (Z.eqb_spec n 0) as [-> | _]; [congruence |].
    rewrite andb_false_r in Hfail. simpl in Hfail.
    injection Hfail as _ <-. unfold Js.or_else. rewrite Hmsgtruthy. reflexivity.
Qed.

Lemma index_returns_lookup_error_witness :
  Io.outcome (Net.serving Net.not_found)
    (Index.checkUrl PlainUrl.api "https://terabox.com/s/1abc" "ndus=abc123"
       DEFAULT_HOST)
  = inr (CheckError (VStr "share not found")).
Proof.
  apply (index_returns_lookup_error PlainUrl.api (Net.serving Net.not_found)
           "https://terabox.com/s/1abc" "ndus=abc123" DEFAULT_HOST _
           (VNum 105) (VStr "share not found") eq_refl eq_refl eq_refl).
Defined.

(** X9. [checkUrl] never retries: [index.js] sends at most one request,
    [part_000] at most two, the primary one and then the fallback one for
    the same identifier; every request is for an identifier that is not
    empty. *)
Theorem requests_bounded (api : UrlApi) (net : request -> fetch_reply)
        (url cookie host : string) :
  (Io.requests net (Index.checkUrl api url cookie host) = []
   \/ exists shortUrl,
       shortUrl <> EmptyString
       /\ Io.requests net (Index.checkUrl api url cookie host)
          = [Index.shortUrlInfo_request shortUrl cookie host])
  /\ (Io.requests net (Part0.checkUrl api url cookie host) = []
      \/ exists shortUrl,
          shortUrl <> EmptyString
          /\ (Io.requests net (Part0.checkUrl api url cookie host)
              = [Part0.shortUrlInfo_request shortUrl cookie host]
              \/ Io.requests net (Part0.checkUrl api url cookie host)
                 = [Part0.shortUrlInfo_request shortUrl cookie host;
                    Part0.shareList_request shortUrl])).
Proof.
  unfold Io.requests. split.
  - destruct (URL_parse api url) as [urlObj |] eqn:Hparse.
    + destruct (missing (Index.shortUrl_of urlObj url)) eqn:Hshort.
      * left. rewrite (Index_checkUrl_no_shortUrl api net url cookie host urlObj
                         Hparse Hshort).
        reflexivity.
      * right. exists (strip_one (the (Index.shortUrl_of urlObj url))). split.
        -- apply is_empty_false, strip_one_nonempty.
           destruct (Index.shortUrl_of urlObj url); [exact Hshort | discriminate].
        -- destruct (Index_lookup_returns net cookie host
                       (strip_one (the (Index.shortUrl_of urlObj url))))
             as [result Hrun].
           rewrite (Index_checkUrl_lookup api net url cookie host urlObj result
                      Hparse Hshort); [reflexivity |].
           unfold Io.outcome. rewrite Hrun. reflexivity.
    + left. rewrite (Index_checkUrl_unparsed api net url cookie host Hparse).
      reflexivity.
  - destruct (Part0.shortUrl_of (Part0.convertToDefaultHost api url host))
      as [shortUrl |] eqn:Hextract.
    + right. exists shortUrl. split.
      * apply is_empty_false.
        assert (H := Part0_shortUrl_present api url host shortUrl Hextract).
        rewrite Hextract in H. exact H.
      * destruct (Part0_lookup_returns net cookie host shortUrl)
          as [[data | errno error] Hp].
        -- left.
           rewrite (Part0_checkUrl_primary api net url cookie host shortUrl
                      Hextract data); [reflexivity |].
           unfold Io.outcome. rewrite Hp. reflexivity.
        -- right. destruct (Part0_fallback_returns net shortUrl) as [result Hf].
           rewrite (Part0_checkUrl_fallback api net url cookie host shortUrl
                      Hextract errno error result); [reflexivity | |].
           ++ unfold Io.outcome. rewrite Hp. reflexivity.
           ++ unfold Io.outcome. rewrite Hf. reflexivity.
    + left. rewrite Part0_checkUrl_no_shortUrl; [reflexivity |].
      rewrite Hextract. reflexivity.
Qed.

(** X10. A string that [new URL] rejects: [index.js] answers
    [{exists: false, error: "Invalid URL format"}] without any request;
    [part_000] goes on with the string as it is, so that it looks up the
    identifier the patterns find in it, and answers
    [{exists: false, error: "Invalid URL"}] only when they find none. *)
Theorem unparseable_url_handling
        (api : UrlApi) (net : request -> fetch_reply) (url cookie host : string) :
  URL_parse api url = None ->
  Io.run net (Index.checkUrl api url cookie host)
  = (inr (CheckError (VStr "Invalid URL format")), [])
  /\ (forall shortUrl,
         Part0.shortUrl_of url = Some shortUrl ->
         hd_error (Io.requests net (Part0.checkUrl api url cookie host))
         = Some (Part0.shortUrlInfo_request shortUrl cookie host))
  /\ (Part0.shortUrl_of url = None ->
      Io.run net (Part0.checkUrl api url cookie host)
      = (inr (CheckError (VStr "Invalid URL")), [])).
Proof.
  intros Hparse.
  assert (Hsame : Part0.convertToDefaultHost api url host = url).
  { unfold Part0.convertToDefaultHost. rewrite Hparse. reflexivity. }
  split; [apply Index_checkUrl_unparsed; exact Hparse |]. split.
  - intros shortUrl Hextract. apply Part0_first_request.
    rewrite Hsame. exact Hextract.
  - intros Hnone. apply Part0_checkUrl_no_shortUrl.
    rewrite Hsame, Hnone. reflexivity.
Qed.

Lemma unparseable_url_handling_witness :
  Io.run Net.offline
    (Index.checkUrl PlainUrl.api "terabox.com/s/1abc" "ndus=abc123" DEFAULT_HOST)
  = (inr (CheckError (VStr "Invalid URL format")), [])
  /\ hd_error (Io.requests Net.offline
                 (Part0.checkUrl PlainUrl.api "terabox.com/s/1abc" "ndus=abc123"
                    DEFAULT_HOST))
     = Some (Part0.shortUrlInfo_request "abc" "ndus=abc123" DEFAULT_HOST)
  /\ Io.run Net.offline
       (Part0.checkUrl PlainUrl.api "terabox folder" "ndus=abc123" DEFAULT_HOST)
     = (inr (CheckError (VStr "Invalid URL")), []).
Proof.
  destruct (unparseable_url_handling PlainUrl.api Net.offline
              "terabox.com/s/1abc" "ndus=abc123" DEFAULT_HOST eq_refl)
    as [Hindex [Hpart0 _]].
  destruct (unparseable_url_handling PlainUrl.api Net.offline
              "terabox folder" "ndus=abc123" DEFAULT_HOST eq_refl)
    as [_ [_ Hnone]].
  split; [exact Hindex |]. split; [exact (Hpart0 "abc" eq_refl) |].
  exact (Hnone eq_refl).
Defined.

(** X11. In [part_000], after a successful primary lookup, [checkUrl]
    answers [{exists: false, error: "Check failed"}] exactly when the
    payload has no usable file list: [list] is a truthy value that is not an
    array, or one of its entries is [null].  One such entry fails the whole
    check; there are no partial listings. *)
Theorem part0_check_failed_iff
        (api : UrlApi) (net : request -> fetch_reply)
        (url cookie host shortUrl : string) (data : value) :
  Part0.shortUrl_of (Part0.convertToDefaultHost api url host) = Some shortUrl ->
  provider_success (net (Part0.shortUrlInfo_request shortUrl cookie host)) data ->
  Io.outcome net (Part0.checkUrl api url cookie host)
  = inr (CheckError (VStr "Check failed"))
  <-> ~ exists items, payload_list data = Some items /\ Forall readable items.
Proof.
  intros Hextract Hreply. unfold Io.outcome.
  rewrite (Part0_checkUrl_primary api net url cookie host shortUrl Hextract data
             (Part0_lookup_success _ _ _ _ _ Hreply)).
  cbn [fst]. destruct (Part0.file_listing data) as [e | r] eqn:E; simpl.
  - split; [| reflexivity]. intros _ [items [Hlist Hitems]].
    rewrite (Part0_file_listing_readable _ _ Hlist Hitems) in E. discriminate E.
  - destruct (Part0_file_listing_inv _ _ E) as [items [fs [Hlist [Hitems ->]]]].
    split; [discriminate |]. intros Hno. exfalso. apply Hno. eauto.
Qed.

Lemma part0_check_failed_iff_witness :
  Io.outcome
    (Net.serving (VObj [("errno", VNum 0);
                        ("list", VArr [VObj [("server_filename", VStr "a.txt")];
                                       VNull])]))
    (Part0.checkUrl PlainUrl.api "https://terabox.com/s/1abc" "ndus=abc123"
       DEFAULT_HOST)
  = inr (CheckError (VStr "Check failed")).
Proof.
  apply (part0_check_failed_iff PlainUrl.api
           (Net.serving (VObj [("errno", VNum 0);
                               ("list", VArr [VObj [("server_filename", VStr "a.txt")];
                                              VNull])]))
           "https://terabox.com/s/1abc" "ndus=abc123" DEFAULT_HOST "abc"
           (VObj [("errno", VNum 0);
                  ("list", VArr [VObj [("server_filename", VStr "a.txt")];
                                 VNull])])
           eq_refl (conj eq_refl eq_refl)).
  intros [items [Hlist Hitems]]. injection Hlist as <-.
  inversion Hitems as [| v l _ Hrest]. inversion Hrest as [| v' l' [Hnull _] _].
  apply Hnull. reflexivity.
Defined.

(** X12. The [error] of a result of [checkUrl] in [part_000] is one of
    three fixed strings; what the provider or the network reported is
    never passed on. *)
Theorem part0_error_messages
        (api : UrlApi) (net : request -> fetch_reply) (url cookie host : string)
        (error : value) :
  Io.outcome net (Part0.checkUrl api url cookie host) = inr (CheckError error) ->
  error = VStr "Invalid URL"
  \/ error = VStr "File not found or deleted"
  \/ error = VStr "Check failed".
Proof.
  unfold Io.outcome.
  destruct (Part0_checkUrl_cases api net url cookie host)
    as [-> | [[s [d ->]] | [[s [d ->]] | [s ->]]]]; cbn [fst].
  - intros H. injection H as <-. auto.
  - destruct (Part0.file_listing d) as [e | r] eqn:E; simpl.
    + intros H. injection H as <-. auto.
    + destruct (Part0_file_listing_inv _ _ E) as [items [fs [_ [_ ->]]]].
      discriminate.
  - destruct (Part0.file_listing d) as [e | r] eqn:E; simpl.
    + intros H. injection H as <-. auto.
    + destruct (Part0_file_listing_inv _ _ E) as [items [fs [_ [_ ->]]]].
      discriminate.
  - intros H. injection H as <-. auto.
Qed.

Lemma part0_error_messages_witness :
  Io.outcome (Net.serving Net.not_found)
    (Part0.checkUrl PlainUrl.api "https://terabox.com/s/1abc" "ndus=abc123"
       DEFAULT_HOST)
  = inr (CheckError (VStr "File not found or deleted"))
  /\ (VStr "File not found or deleted" = VStr "Invalid URL"
      \/ VStr "File not found or deleted" = VStr "File not found or deleted"
      \/ VStr "File not found or deleted" = VStr "Check failed").
Proof.
  split; [reflexivity |].
  apply (part0_error_messages PlainUrl.api (Net.serving Net.not_found)
           "https://terabox.com/s/1abc" "ndus=abc123" DEFAULT_HOST).
  reflexivity.
Defined.

(** X13. In [index.js] the two strategies exclude each other: a [surl]
    parameter that is present with an empty value makes [checkUrl] answer
    [{exists: false, error: "Could not parse Short URL"}] without any
    request, also when the path has a [/s/<token>] segment. *)
Theorem index_empty_surl
        (api : UrlApi) (net : request -> fetch_reply) (url cookie host : string)
        (urlObj : URL) :
  URL_parse api url = Some urlObj ->
  searchParams_has urlObj "surl" = true ->
  searchParams_get urlObj "surl" = Some EmptyString ->
  Io.run net (Index.checkUrl api url cookie host)
  = (inr (CheckError (VStr "Could not parse Short URL")), []).
Proof.
  intros Hparse Hhas Hget.
  apply (Index_checkUrl_no_shortUrl api net url cookie host urlObj Hparse).
  unfold Index.shortUrl_of. rewrite Hhas, Hget. reflexivity.
Qed.

Lemma index_empty_surl_witness :
  match_s_path "https://terabox.com/s/1abc?surl=" = Some "1abc"
  /\ Io.run (Net.serving Net.one_file)
       (Index.checkUrl PlainUrl.api "https://terabox.com/s/1abc?surl="
          "ndus=abc123" DEFAULT_HOST)
     = (inr (CheckError (VStr "Could not parse Short URL")), []).
Proof.
  split; [reflexivity |].
  apply (index_empty_surl PlainUrl.api (Net.serving Net.one_file)
           "https://terabox.com/s/1abc?surl=" "ndus=abc123" DEFAULT_HOST _
           eq_refl eq_refl eq_refl).
Defined.

(** ** The handlers *)

Lemma includes_inner (x lit y s : string) :
  JsString.includes (x ++ lit ++ y) s = true -> JsString.includes lit s = true.
Proof.
  rewrite !includes_iff. intros [pre [post ->]].
  exists (pre ++ x)%string, (y ++ post)%string.
  rewrite !append_assoc. reflexivity.
Qed.

Lemma alias_validation (h : string) :
  In h Part0.TERABOX_DOMAINS ->
  Part0.looks_like_terabox h
  = negb (existsb (String.eqb h) ["momerybox.com"; "tibibox.com"; "1024box.com"]).
Proof.
  unfold Part0.TERABOX_DOMAINS. intros Hin.
  repeat (destruct Hin as [<- | Hin]; [reflexivity |]). destruct Hin.
Qed.

(** X14. The validation of [part_000] accepts exactly the strings that
    contain [tera], [4funbox], [nephobox] or [mirrobox]: the other three
    alternatives of the pattern contain [tera].  It is not the membership
    test of the host normalizer: of the host names in [TERABOX_DOMAINS],
    [momerybox.com], [tibibox.com] and [1024box.com] do not pass it. *)
Theorem validation_words :
  (forall s,
      Part0.looks_like_terabox s
      = (JsString.includes "tera" s || JsString.includes "4funbox" s
         || JsString.includes "nephobox" s || JsString.includes "mirrobox" s))
  /\ (forall h,
         In h Part0.TERABOX_DOMAINS ->
         Part0.looks_like_terabox h = false
         <-> h = "momerybox.com"%string \/ h = "tibibox.com"%string
             \/ h = "1024box.com"%string).
Proof.
  split.
  - intros s. unfold Part0.looks_like_terabox. simpl existsb.
    destruct (JsString.includes "tera" s) eqn:Etera.
    + rewrite orb_true_r. reflexivity.
    + assert (H1 : JsString.includes "terabox" s = false).
      { destruct (JsString.includes "terabox" s) eqn:E; [| reflexivity].
        rewrite <- Etera. symmetry.
        exact (includes_inner EmptyString "tera" "box" s E). }
      assert (H2 : JsString.includes "1024tera" s = false).
      { destruct (JsString.includes "1024tera" s) eqn:E; [| reflexivity].
        rewrite <- Etera. symmetry.
        exact (includes_inner "1024" "tera" EmptyString s E). }
      assert (H3 : JsString.includes "freeterabox" s = false).
      { destruct (JsString.includes "freeterabox" s) eqn:E; [| reflexivity].
        rewrite <- Etera. symmetry.
        exact (includes_inner "free" "tera" "box" s E). }
      rewrite H1, H2, H3. simpl. rewrite orb_false_r, orb_assoc. reflexivity.
  - intros h Hin. rewrite (alias_validation h Hin), negb_false_iff.
    simpl existsb. rewrite orb_false_r, !orb_true_iff, !String.eqb_eq.
    tauto.
Qed.

Lemma validation_words_witness :
  Part0.looks_like_terabox "momerybox.com" = false
  /\ Part0.looks_like_terabox "https://example.org/?q=tera" = true.
Proof.
  destruct validation_words as [Hwords Halias]. split.
  - apply (Halias "momerybox.com").
    + unfold Part0.TERABOX_DOMAINS. simpl. tauto.
    + left. reflexivity.
  - rewrite Hwords. reflexivity.
Defined.

Lemma Index_get_root_run (api : UrlApi) (net : request -> fetch_reply) (q : query) :
  Io.run net (Index.get_root api q) =
  if missing (q_url q) && missing (q_cookie q)
  then (inr (HttpResponse 200 Index.api_info), [])
  else if missing (q_url q)
  then (inr (HttpResponse 400 (VObj [("error", VStr "Missing 'url' parameter")])), [])
  else if missing (q_cookie q)
  then (inr (HttpResponse 401 (VObj [("error", VStr "Missing 'cookie' parameter")])),
        [])
  else
    match Io.run net (Index.checkUrl api (the (q_url q))
                        (with_ndus_prefix (the (q_cookie q)))
                        (host_or_default (q_host q))) with
    | (inr r, sent) => (inr (HttpResponse 200 (CheckResult_json r)), sent)
    | (inl e, sent) => (inl e, sent)
    end.
Proof.
  unfold Index.get_root. cbv zeta.
  destruct (missing (q_url q)), (missing (q_cookie q)); simpl;
    try reflexivity.
  apply (run_then_ret net).
Qed.

Lemma Part0_get_root_run (api : UrlApi) (net : request -> fetch_reply) (q : query) :
  Io.run net (Part0.get_root api q) =
  if missing (q_url q)
  then (inr (HttpResponse 200 Part0.api_info), [])
  else if missing (q_cookie q)
  then (inr (HttpResponse 401 (VObj [("error", VStr "Missing 'cookie' parameter")])),
        [])
  else if negb (Part0.looks_like_terabox (the (q_url q)))
  then (inr (HttpResponse 400 (VObj [("error", VStr "Invalid TeraBox URL")])), [])
  else
    match Io.run net (Part0.checkUrl api (the (q_url q))
                        (with_ndus_prefix (the (q_cookie q)))
                        (host_or_default (q_host q))) with
    | (inr r, sent) => (inr (HttpResponse 200 (CheckResult_json r)), sent)
    | (inl e, sent) => (inl e, sent)
    end.
Proof.
  unfold Part0.get_root. cbv zeta.
  destruct (missing (q_url q)), (missing (q_cookie q)); simpl;
    try reflexivity.
  destruct (Part0.looks_like_terabox (the (q_url q))); simpl; [| reflexivity].
  apply (run_then_ret net).
Qed.

(** For a query whose three parameters are each absent or a string. *)
Lemma string_queries_gatekeeping (api : UrlApi) (net : request -> fetch_reply)
        (q : query) :
  (exists resp,
      Io.outcome net (Index.get_root api q) = inr resp
      /\ (status resp = 200 \/ status resp = 400 \/ status resp = 401)
      /\ (status resp <> 200 -> Io.requests net (Index.get_root api q) = []))
  /\ (Io.requests net (Index.get_root api q) <> [] ->
      missing (q_url q) = false /\ missing (q_cookie q) = false)
  /\ (exists resp,
         Io.outcome net (Part0.get_root api q) = inr resp
         /\ (status resp = 200 \/ status resp = 400 \/ status resp = 401)
         /\ (status resp <> 200 -> Io.requests net (Part0.get_root api q) = []))
  /\ (Io.requests net (Part0.get_root api q) <> [] ->
      missing (q_url q) = false /\ missing (q_cookie q) = false
      /\ Part0.looks_like_terabox (the (q_url q)) = true).
Proof.
  unfold Io.outcome, Io.requests.
  rewrite Index_get_root_run, Part0_get_root_run.
  destruct (Index_checkUrl_returns api net (the (q_url q))
              (with_ndus_prefix (the (q_cookie q))) (host_or_default (q_host q)))
    as [ri Hi].
  destruct (Part0_checkUrl_returns api net (the (q_url q))
              (with_ndus_prefix (the (q_cookie q))) (host_or_default (q_host q)))
    as [rp Hp].
  unfold Io.outcome in Hi, Hp.
  destruct (Io.run net (Index.checkUrl _ _ _ _)) as [[ei | ri'] senti];
    [discriminate Hi |].
  destruct (Io.run net (Part0.checkUrl _ _ _ _)) as [[ep | rp'] sentp];
    [discriminate Hp |].
  destruct (missing (q_url q)), (missing (q_cookie q)),
    (Part0.looks_like_terabox (the (q_url q))); cbn -[Index.api_info Part0.api_info];
    (split; [| split; [| split]]);
    try (eexists; split; [reflexivity |]; cbn [status];
         split; [tauto |]; intros H;
         first [reflexivity | exfalso; apply H; reflexivity]);
    intros H; try (exfalso; apply H; reflexivity); repeat split.
Qed.

Lemma index_get_root_of_strings (api : UrlApi) (teraUrl cookie host : option string) :
  AnyCookie.index_get_root api teraUrl (qparam_of cookie) host
  = Index.get_root api (Query teraUrl cookie host).
Proof.
  unfold AnyCookie.index_get_root, Index.get_root. cbv zeta. simpl.
  destruct cookie as [c |]; simpl.
  - destruct (missing teraUrl), (JsString.is_empty c); reflexivity.
  - destruct (missing teraUrl); reflexivity.
Qed.

Lemma part0_get_root_of_strings (api : UrlApi) (teraUrl cookie host : option string) :
  AnyCookie.part0_get_root api teraUrl (qparam_of cookie) host
  = Part0.get_root api (Query teraUrl cookie host).
Proof.
  unfold AnyCookie.part0_get_root, Part0.get_root. cbv zeta. simpl.
  destruct cookie as [c |]; simpl.
  - destruct (missing teraUrl), (JsString.is_empty c); reflexivity.
  - destruct (missing teraUrl); reflexivity.
Qed.

(** X15. The handlers of [GET /], for [url] and [host] given at most once
    and any [cookie].  When [url] is present and [cookie] is an array or an
    object, [cookie.startsWith] throws a TypeError outside any [try] and no
    request is sent.  In every other case the handlers do not throw and
    answer 200, 400 or 401, and an answer other than 200 was given without
    any request.  A request is sent only when [url] and [cookie] are
    strings that are not empty and, in [part_000], [url] passes the
    pattern test. *)
Theorem handlers_gatekeeping (api : UrlApi) (net : request -> fetch_reply)
        (teraUrl : option string) (cookie : qparam) (host : option string) :
  let index := AnyCookie.index_get_root api teraUrl cookie host in
  let part0 := AnyCookie.part0_get_root api teraUrl cookie host in
  (missing teraUrl = false -> cookie = QOther ->
   Io.run net index = (inl (Js.not_a_function "cookie.startsWith"), [])
   /\ Io.run net part0 = (inl (Js.not_a_function "cookie.startsWith"), []))
  /\ (missing teraUrl = true \/ cookie <> QOther ->
      (exists resp,
          Io.outcome net index = inr resp
          /\ (status resp = 200 \/ status resp = 400 \/ status resp = 401)
          /\ (status resp <> 200 -> Io.requests net index = []))
      /\ (exists resp,
             Io.outcome net part0 = inr resp
             /\ (status resp = 200 \/ status resp = 400 \/ status resp = 401)
             /\ (status resp <> 200 -> Io.requests net part0 = [])))
  /\ (Io.requests net index <> [] ->
      missing teraUrl = false
      /\ exists c, cookie = QString c /\ c <> EmptyString)
  /\ (Io.requests net part0 <> [] ->
      missing teraUrl = false
      /\ (exists c, cookie = QString c /\ c <> EmptyString)
      /\ Part0.looks_like_terabox (the teraUrl) = true).
Proof.
  intros index part0.
  assert (Hother : cookie = QOther ->
            Io.run net index
            = (if missing teraUrl
               then (inr (HttpResponse 400
                            (VObj [("error", VStr "Missing 'url' parameter")])), [])
               else (inl (Js.not_a_function "cookie.startsWith"), []))
            /\ Io.run net part0
               = (if missing teraUrl
                  then (inr (HttpResponse 200 Part0.api_info), [])
                  else (inl (Js.not_a_function "cookie.startsWith"), []))).
  { intros ->. unfold index, part0, AnyCookie.index_get_root,
      AnyCookie.part0_get_root.
    cbv zeta. destruct (missing teraUrl); split; reflexivity. }
  assert (Hstrings : forall c, cookie = qparam_of c ->
            index = Index.get_root api (Query teraUrl c host)
            /\ part0 = Part0.get_root api (Query teraUrl c host)).
  { intros c ->. split;
      [apply index_get_root_of_strings | apply part0_get_root_of_strings]. }
  destruct cookie as [| c |].
  - destruct (Hstrings None eq_refl) as [-> ->].
    destruct (string_queries_gatekeeping api net (Query teraUrl None host))
      as [Hi [Hsi [Hp Hsp]]].
    split; [intros _ H; discriminate H |]. split; [intros _; split; assumption |].
    split.
    + intros H. destruct (Hsi H) as [_ Hc]. discriminate Hc.
    + intros H. destruct (Hsp H) as [_ [Hc _]]. discriminate Hc.
  - destruct (Hstrings (Some c) eq_refl) as [-> ->].
    destruct (string_queries_gatekeeping api net (Query teraUrl (Some c) host))
      as [Hi [Hsi [Hp Hsp]]].
    split; [intros _ H; discriminate H |]. split; [intros _; split; assumption |].
    split.
    + intros H. destruct (Hsi H) as [Hu Hc]. split; [exact Hu |].
      exists c. split; [reflexivity | apply is_empty_false; exact Hc].
    + intros H. destruct (Hsp H) as [Hu [Hc Hv]]. split; [exact Hu |].
      split; [| exact Hv].
      exists c. split; [reflexivity | apply is_empty_false; exact Hc].
  - destruct (Hother eq_refl) as [Hi Hp].
    split; [| split; [| split]].
    + intros Hu _. rewrite Hu in Hi, Hp. split; assumption.
    + intros [Hu | Hne]; [| congruence].
      unfold Io.outcome, Io.requests. rewrite Hi, Hp, Hu.
      split; eexists; (split; [reflexivity |]); cbn [status];
        (split; [tauto |]); intros _; reflexivity.
    + unfold Io.requests. rewrite Hi.
      destruct (missing teraUrl); intros H; exfalso; apply H; reflexivity.
    + unfold Io.requests. rewrite Hp.
      destruct (missing teraUrl); intros H; exfalso; apply H; reflexivity.
Qed.

Lemma handlers_gatekeeping_witness :
  Io.run (Net.serving Net.one_file)
    (AnyCookie.index_get_root PlainUrl.api (Some "https://terabox.com/s/1abc")
       QOther None)
  = (inl (Error "cookie.startsWith is not a function"), [])
  /\ Io.requests (Net.serving Net.one_file)
       (AnyCookie.part0_get_root PlainUrl.api
          (Some "https://momerybox.com/s/1abc") (QString "abc123") None)
     = []
  /\ (exists c, QString "abc123" = QString c /\ c <> EmptyString).
Proof.
  split; [| split].
  - destruct (handlers_gatekeeping PlainUrl.api (Net.serving Net.one_file)
                (Some "https://terabox.com/s/1abc") QOther None)
      as [Hthrows _].
    exact (proj1 (Hthrows eq_refl eq_refl)).
  - destruct (handlers_gatekeeping PlainUrl.api (Net.serving Net.one_file)
                (Some "https://momerybox.com/s/1abc") (QString "abc123") None)
      as [_ [Hanswers _]].
    destruct Hanswers as [_ [resp [Hrun [_ Hquiet]]]];
      [right; discriminate |].
    apply Hquiet. injection Hrun as <-. discriminate.
  - destruct (handlers_gatekeeping PlainUrl.api (Net.serving Net.one_file)
                (Some "https://terabox.com/s/1abc") (QString "abc123") None)
      as [_ [_ [Hsent _]]].
    apply Hsent. discriminate.
Defined.

(** ** The two applications side by side *)

(** X16. Where the two [checkUrl] functions coincide: on a URL that parses,
    whose host is not an alias (so that [part_000] leaves it as it is),
    without [surl] parameter and without [surl=] in it, both look up the
    stripped [/s/<token>] with the same single request, and on a successful
    answer listing at least one entry (none of them [null]) both return the
    same [{exists: true, total_files, files}]. *)
Theorem variants_agree_on_listing
        (api : UrlApi) (net : request -> fetch_reply) (url cookie host : string)
        (urlObj : URL) (rawUrl : string) (data : value) (items : list value) :
  URL_parse api url = Some urlObj ->
  ~ In (hostname urlObj) Part0.TERABOX_DOMAINS ->
  searchParams_has urlObj "surl" = false ->
  Part0.match_surl url = None ->
  match_s_path url = Some rawUrl ->
  provider_success
    (net (Index.shortUrlInfo_request (strip_one rawUrl) cookie host)) data ->
  Js.get data "list" = inr (VArr items) ->
  items <> [] ->
  Forall readable items ->
  Io.run net (Index.checkUrl api url cookie host)
  = Io.run net (Part0.checkUrl api url cookie host)
  /\ Io.run net (Part0.checkUrl api url cookie host)
     = (inr (CheckFiles true (List.length items) (map entry_of items)),
        [Part0.shortUrlInfo_request (strip_one rawUrl) cookie host]).
Proof.
  intros Hparse Hhost Hhas Hsurl Hpath Hreply Hlist Hne Hitems.
  assert (Hpayload := payload_list_array _ _ Hlist).
  assert (Hsame : Part0.convertToDefaultHost api url host = url).
  { unfold Part0.convertToDefaultHost. rewrite Hparse.
    destruct (Part0.is_alias (hostname urlObj)) eqn:E; [| reflexivity].
    apply is_alias_In in E. contradiction. }
  assert (Hextract : Part0.shortUrl_of (Part0.convertToDefaultHost api url host)
                     = Some (strip_one rawUrl)).
  { rewrite Hsame. unfold Part0.shortUrl_of. rewrite Hsurl, Hpath. reflexivity. }
  assert (Hshort : Index.shortUrl_of urlObj url = Some rawUrl).
  { unfold Index.shortUrl_of. rewrite Hhas. exact Hpath. }
  assert (Hpresent : missing (Index.shortUrl_of urlObj url) = false).
  { rewrite Hshort. exact (match_lit_run_nonempty _ _ _ _ Hpath). }
  assert (Hpart0 :
            Io.run net (Part0.checkUrl api url cookie host)
            = (inr (CheckFiles true (List.length items) (map entry_of items)),
               [Part0.shortUrlInfo_request (strip_one rawUrl) cookie host])).
  { rewrite (Part0_checkUrl_primary api net url cookie host _ Hextract data
               (Part0_lookup_success _ _ _ _ _ Hreply)).
    rewrite (Part0_file_listing_readable _ _ Hpayload Hitems).
    destruct items; [congruence | reflexivity]. }
  split; [| exact Hpart0].
  rewrite Hpart0.
  assert (H := Index_checkUrl_lookup api net url cookie host urlObj (Success data)
                 Hparse Hpresent).
  rewrite Hshort in H. simpl the in H.
  rewrite (H (Index_lookup_success _ _ _ _ _ Hreply)).
  rewrite (Index_check_result_readable _ _ Hpayload Hne Hitems). reflexivity.
Qed.

Lemma variants_agree_on_listing_witness :
  Io.run (Net.serving Net.one_file)
    (Index.checkUrl PlainUrl.api "https://teraboxes.example/s/1abc"
       "ndus=abc123" DEFAULT_HOST)
  = Io.run (Net.serving Net.one_file)
      (Part0.checkUrl PlainUrl.api "https://teraboxes.example/s/1abc"
         "ndus=abc123" DEFAULT_HOST).
Proof.
  apply (variants_agree_on_listing PlainUrl.api (Net.serving Net.one_file)
           "https://teraboxes.example/s/1abc" "ndus=abc123" DEFAULT_HOST _
           "1abc" Net.one_file
           [VObj [("server_filename", VStr "a.txt"); ("size", VNum 10);
                  ("isdir", VNum 0)]]
           eq_refl).
  - simpl. intros H.
    repeat (destruct H as [H | H]; [discriminate H |]). exact H.
  - reflexivity.
  - reflexivity.
  - reflexivity.
  - split; reflexivity.
  - reflexivity.
  - discriminate.
  - constructor; [split; discriminate | constructor].
Defined.
